(** * roslibpy: the ROS Bridge protocol engine ([roslibpy/comm.py]) and the
      PNG payload codec ([roslibpy/comm/pngcompression.py])

    A shallow embedding of the two modules.  Python objects with mutable
    attributes become records inside one [World]; methods become
    computations in a state-and-exception monad whose exceptional outcome
    keeps the world reached so far (a Python exception does not roll back
    the mutations made before it).  Dictionaries are [gmap]s over the
    hashable Python values. *)

From Stdlib Require Import ZArith String List Bool Ascii.
From Stdlib.Strings Require Import Byte.
From stdpp Require Import base option countable gmap strings list pretty.

Local Open Scope string_scope.
Local Open Scope Z_scope.

Set Warnings "-register-all".

(** ** Python values *)

(** The values that travel through the protocol engine: what [json.loads]
    produces ([None], booleans, integers, strings, lists, dictionaries with
    string keys), instances of the two classes [Message] and
    [ServiceResponse] of the package, protocol instances (handed to the
    [ready] listeners) and any other object.  JSON numbers are kept to the
    integers. *)
Inductive pyval : Type :=
| PyNone
| PyBool (b : bool)
| PyInt (z : Z)
| PyStr (s : string)
| PyList (l : list pyval)
| PyDict (d : list (string * pyval))
| PyMessage (d : list (string * pyval))
| PyServiceResponse (v : pyval)
| PyProtocol (ident : nat)
| PyObject (ident : nat).

(** Modelled from the spec: the class [Message] of [roslibpy/__init__.py],
    which is not among the sources.  Section 3: "an ordered mapping of
    string keys to JSON-compatible values".  The engine only reads it. *)
Abbreviation Message := (list (string * pyval)).

(** Modelled from the spec: the class [ServiceResponse] of
    [roslibpy/__init__.py], which is not among the sources.  Section 3: "the
    values field of a service_response Message, detached from protocol
    envelope fields". *)
Definition ServiceResponse (values : pyval) : pyval := PyServiceResponse values.

(** [key in message] and [message[key]] *)
Fixpoint msg_get (key : string) (m : Message) : option pyval :=
  match m with
  | [] => None
  | (k, v) :: rest => if String.eqb k key then Some v else msg_get key rest
  end.

Definition msg_contains (key : string) (m : Message) : bool :=
  match msg_get key m with Some _ => true | None => false end.

(** Dictionary keys: Python compares keys with [==] and [hash], under which
    [True] is [1] and [False] is [0]; lists and dictionaries are unhashable;
    plain objects hash by identity. *)
Inductive pykey : Type :=
| KNone
| KInt (z : Z)
| KStr (s : string)
| KObj (ident : nat).

#[global] Instance pykey_eq_dec : EqDecision pykey.
Proof. solve_decision. Defined.

Definition pykey_encode (k : pykey) : unit + Z + string + nat :=
  match k with
  | KNone => inl (inl (inl tt))
  | KInt z => inl (inl (inr z))
  | KStr s => inl (inr s)
  | KObj n => inr n
  end.

Definition pykey_decode (x : unit + Z + string + nat) : pykey :=
  match x with
  | inl (inl (inl _)) => KNone
  | inl (inl (inr z)) => KInt z
  | inl (inr s) => KStr s
  | inr n => KObj n
  end.

#[global] Instance pykey_countable : Countable pykey.
Proof.
  refine (inj_countable' pykey_encode pykey_decode _).
  intros []; reflexivity.
Defined.

Definition hash_key (v : pyval) : option pykey :=
  match v with
  | PyNone => Some KNone
  | PyBool b => Some (KInt (if b then 1 else 0))
  | PyInt z => Some (KInt z)
  | PyStr s => Some (KStr s)
  | PyProtocol n | PyObject n => Some (KObj n)
  | PyList _ | PyDict _ | PyMessage _ | PyServiceResponse _ => None
  end.

(** [message['result'] is False]: identity with the [False] singleton. *)
Definition is_False (v : pyval) : bool :=
  match v with PyBool false => true | _ => false end.

(** ['result' in message and message['result'] is False] *)
Definition result_is_False (message : Message) : bool :=
  match msg_get "result" message with
  | Some r => is_False r
  | None => false
  end.

(** ** Exceptions *)

(** The exception classes the module raises or lets through.  Everything
    but [NonStandardException] is a subclass of Python 2's
    [StandardError]. *)
Inductive exn : Type :=
| KeyError (key : string)
| TypeError (msg : string)
| ValueError (msg : string)
| AttributeError (msg : string)
| NotImplementedError (msg : string)
| StandardError (fmt : string) (args : list pyval)
| OtherStandardError (ident : nat)
| NonStandardException (ident : nat).

Definition is_StandardError (e : exn) : bool :=
  match e with
  | NonStandardException _ => false
  | _ => true
  end.

(** ** Callables *)

(** A callback is known by its identity; what calling it does is given by
    the collaborators below. *)
Inductive callable : Type := Callable (ident : nat).

#[global] Instance callable_eq_dec : EqDecision callable.
Proof. solve_decision. Defined.

(** The values of [_message_handlers]: the three bound methods installed
    by [__init__], or a callable registered later. *)
Inductive handler : Type :=
| HPublish
| HServiceResponse
| HServiceRequest
| HCustom (f : callable).

(** ** Observable events *)

Inductive level : Type := DEBUG | INFO | EXCEPTION.

Inductive log_arg : Type :=
| ArgStr (s : string)
| ArgExn (e : exn).

Inductive event : Type :=
| EvLog (lvl : level) (fmt : string) (arg : log_arg)
| EvCall (f : callable) (args : list pyval)
| EvSend (frame : string)
| EvEmit (channel : pykey) (payload : pyval)
| EvSuper (method : string).

(** ** The world: one protocol instance, its factory, and the trace *)

Inductive factory_ref : Type := TheFactory.

(** [RosBridgeProtocol]: [self.factory], [self._pending_service_requests]
    (request id to the pair [(callback, errback)], either of which may be
    [None]) and [self._message_handlers] (operation to handler; a registered
    object that is not a callable counts as [None]). *)
Record Protocol : Type := mkProtocol {
  ident : nat;
  factory : option factory_ref;
  _pending_service_requests : gmap pykey (option callable * option callable);
  _message_handlers : gmap pykey (option handler)
}.

Record listener : Type := mkListener {
  l_callback : callable;
  l_once : bool
}.

#[global] Instance listener_eq_dec : EqDecision listener.
Proof. solve_decision. Defined.

(** [RosBridgeClientFactory]: [self._proto] and the listener table it
    inherits from [EventEmitterMixin]. *)
Record Factory : Type := mkFactory {
  _proto : option nat;
  _listeners : gmap pykey (list listener)
}.

Record World : Type := mkWorld {
  proto : Protocol;
  fact : Factory;
  trace : list event
}.

Definition set_pending (f : gmap pykey (option callable * option callable) ->
                            gmap pykey (option callable * option callable))
    (w : World) : World :=
  let p := proto w in
  mkWorld (mkProtocol (ident p) (factory p) (f (_pending_service_requests p))
             (_message_handlers p))
    (fact w) (trace w).

Definition set_handlers (f : gmap pykey (option handler) -> gmap pykey (option handler))
    (w : World) : World :=
  let p := proto w in
  mkWorld (mkProtocol (ident p) (factory p) (_pending_service_requests p)
             (f (_message_handlers p)))
    (fact w) (trace w).

Definition set__proto (v : option nat) (w : World) : World :=
  mkWorld (proto w) (mkFactory v (_listeners (fact w))) (trace w).

Definition set_listeners (f : gmap pykey (list listener) -> gmap pykey (list listener))
    (w : World) : World :=
  mkWorld (proto w) (mkFactory (_proto (fact w)) (f (_listeners (fact w)))) (trace w).

Definition add_event (ev : event) (w : World) : World :=
  mkWorld (proto w) (fact w) (trace w ++ [ev]).

(** ** The monad of methods *)

Inductive Outcome (A : Type) : Type :=
| Return (a : A) (w : World)
| Raise (e : exn) (w : World).
Arguments Return {A} a w.
Arguments Raise {A} e w.

Definition M (A : Type) : Type := World -> Outcome A.

Definition ret {A} (a : A) : M A := fun w => Return a w.

Definition raise {A} (e : exn) : M A := fun w => Raise e w.

Definition bind {A B} (c : M A) (k : A -> M B) : M B :=
  fun w => match c w with
           | Return a w' => k a w'
           | Raise e w' => Raise e w'
           end.

Notation "'let*' x ':=' c 'in' k" := (bind c (fun x => k))
  (at level 10, x name, c at level 100, k at level 200).
Notation "c ;> k" := (bind c (fun _ => k))
  (at level 100, k at level 200, right associativity).

Definition get_world : M World := fun w => Return w w.

Definition modify (f : World -> World) : M unit := fun w => Return tt (f w).

Definition lift {A} (r : exn + A) : M A :=
  match r with
  | inl e => raise e
  | inr a => ret a
  end.

(** [try: body except StandardError as exception: handler] *)
Definition try_except_StandardError {A} (body : M A) (handler : exn -> M A) : M A :=
  fun w => match body w with
           | Return a w' => Return a w'
           | Raise e w' => if is_StandardError e then handler e w' else Raise e w'
           end.

(** [message[key]] raises [KeyError] on a missing key. *)
Definition getitem (m : Message) (key : string) : M pyval :=
  match msg_get key m with
  | Some v => ret v
  | None => raise (KeyError key)
  end.

(** Using a value as a dictionary key raises [TypeError] when it is
    unhashable. *)
Definition hashed (v : pyval) : M pykey :=
  match hash_key v with
  | Some k => ret k
  | None => raise (TypeError "unhashable type")
  end.

Definition LOGGER (lvl : level) (fmt : string) (arg : log_arg) : M unit :=
  modify (add_event (EvLog lvl fmt arg)).

(** ** Collaborators *)

(** What the module imports and calls but does not define: the [json]
    codec, autobahn's [sendMessage], the Twisted base class of the factory,
    and the behaviour of the callbacks that users register.  [json_dumps m]
    stands for [json.dumps(dict(m)).encode('utf8')] and [json_loads p] for
    [Message(json.loads(p.decode('utf8')))]. *)
Class Collaborators : Type := {
  json_dumps : Message -> exn + string;
  json_loads : string -> exn + Message;
  transport_sendMessage : string -> M unit;
  run_callable : callable -> list pyval -> M unit;
  Reconnecting_clientConnectionLost : M unit;
  Reconnecting_clientConnectionFailed : M unit
}.

Definition dquote : string := String "034"%char EmptyString.

(** The messages of the two exceptions raised on a failed lookup. *)
Definition no_service_handler : string :=
  "No handler registered for service request ID: " ++ dquote ++ "%s" ++ dquote.

Definition no_operation_handler : string :=
  "No handler registered for operation " ++ dquote ++ "%s" ++ dquote.

Section Engine.
Context `{Collaborators}.

(** Calling a callback: the call is recorded, then the callback runs. *)
Definition call (f : callable) (args : list pyval) : M unit :=
  modify (add_event (EvCall f args)) ;> run_callable f args.

(** [self.sendMessage(payload)], inherited from autobahn. *)
Definition self_sendMessage (payload : string) : M unit :=
  modify (add_event (EvSend payload)) ;> transport_sendMessage payload.

(** *** EventEmitterMixin *)

Definition listeners_of (ch : pykey) (w : World) : list listener :=
  default [] (_listeners (fact w) !! ch).

Fixpoint remove_first (l : listener) (ls : list listener) : list listener :=
  match ls with
  | [] => []
  | x :: rest => if decide (x = l) then rest else x :: remove_first l rest
  end.

(** Modelled from the spec: the registration step shared by
    [EventEmitterMixin.on] and [EventEmitterMixin.once] of
    [roslibpy/event_emitter.py], which is not among the sources.  Section 3:
    a channel maps to "an ordered set of registered callbacks, plus a flag
    distinguishing fire once and remove entries from persistent ones".  A
    callback therefore has one entry per channel: a new callback goes to the
    end, and registering a callback that is already there keeps its place
    and gives it the flag of the new registration. *)
Fixpoint subscribe (callback : callable) (once_flag : bool) (ls : list listener)
    : list listener :=
  match ls with
  | [] => [mkListener callback once_flag]
  | l :: rest =>
      if decide (l_callback l = callback)
      then mkListener callback once_flag :: rest
      else l :: subscribe callback once_flag rest
  end.

(** Modelled from the spec: [EventEmitterMixin.on] of
    [roslibpy/event_emitter.py], which is not among the sources.  Section
    4.3: "on(channel, callback) adds a persistent listener". *)
Definition on (channel : pyval) (callback : callable) : M unit :=
  let* ch := hashed channel in
  modify (set_listeners (fun t =>
    <[ch := subscribe callback false (default [] (t !! ch))]> t)).

(** Modelled from the spec: [EventEmitterMixin.once].  Section 4.3:
    "once(channel, callback) adds a one-shot listener removed immediately
    after its first invocation". *)
Definition once (channel : pyval) (callback : callable) : M unit :=
  let* ch := hashed channel in
  modify (set_listeners (fun t =>
    <[ch := subscribe callback true (default [] (t !! ch))]> t)).

(** Modelled from the spec: [EventEmitterMixin.off].  Section 4.3:
    "off(channel, callback?) removes a specific listener or all listeners
    for a channel"; section 3: an entry is "never destroyed as a whole,
    only emptied". *)
Definition off (channel : pyval) (callback : option callable) : M unit :=
  let* ch := hashed channel in
  modify (set_listeners (fun t =>
    match callback with
    | None => <[ch := []]> t
    | Some f =>
        <[ch := filter (fun l => l_callback l <> f) (default [] (t !! ch))]> t
    end)).

Definition fire (ch : pykey) (payload : pyval) (l : listener) : M unit :=
  call (l_callback l) [payload] ;>
  if l_once l
  then modify (set_listeners (fun t =>
         <[ch := remove_first l (default [] (t !! ch))]> t))
  else ret tt.

Fixpoint fire_all (ch : pykey) (payload : pyval) (ls : list listener) : M unit :=
  match ls with
  | [] => ret tt
  | l :: rest => fire ch payload l ;> fire_all ch payload rest
  end.

(** Modelled from the spec: [EventEmitterMixin.emit].  Section 4.3:
    "emit(channel, payload) invokes all currently registered listeners for
    that channel, in registration order, passing payload; emitting to a
    channel with no listeners is a no-op, not an error". *)
Definition emit (channel : pyval) (payload : pyval) : M unit :=
  let* ch := hashed channel in
  modify (add_event (EvEmit ch payload)) ;>
  let* w := get_world in
  fire_all ch payload (listeners_of ch w).

(** *** RosBridgeClientFactory *)

Definition Factory_init : Factory := mkFactory None ∅.

Definition on_ready (callback : callable) : M unit :=
  let* w := get_world in
  match _proto (fact w) with
  | Some p => call callback [PyProtocol p]
  | None => once (PyStr "ready") callback
  end.

Definition ready (p : nat) : M unit :=
  modify (set__proto (Some p)) ;>
  emit (PyStr "ready") (PyProtocol p).

Definition startedConnecting : M unit :=
  LOGGER DEBUG "Started to connect..." (ArgStr EmptyString).

Definition clientConnectionLost (reason : string) : M unit :=
  LOGGER DEBUG "Lost connection. Reason: %s" (ArgStr reason) ;>
  modify (add_event (EvSuper "clientConnectionLost")) ;>
  Reconnecting_clientConnectionLost ;>
  modify (set__proto None).

Definition clientConnectionFailed (reason : string) : M unit :=
  LOGGER DEBUG "Connection failed. Reason: %s" (ArgStr reason) ;>
  modify (add_event (EvSuper "clientConnectionFailed")) ;>
  Reconnecting_clientConnectionFailed ;>
  modify (set__proto None).

(** *** RosBridgeProtocol *)

Definition Protocol_init (id : nat) : Protocol :=
  mkProtocol id None ∅
    (<[KStr "publish" := Some HPublish]>
       (<[KStr "service_response" := Some HServiceResponse]>
          (<[KStr "call_service" := Some HServiceRequest]> ∅))).

(** [self.factory.attr] when [self.factory] may still be [None]. *)
Definition self_factory (attr : string) : M factory_ref :=
  let* w := get_world in
  match factory (proto w) with
  | Some f => ret f
  | None => raise (AttributeError attr)
  end.

Definition send_ros_message (message : Message) : M unit :=
  try_except_StandardError
    (let* json_message := lift (json_dumps message) in
     LOGGER DEBUG "Sending ROS message: %s" (ArgStr json_message) ;>
     self_sendMessage json_message)
    (fun exception =>
       LOGGER EXCEPTION "Failed to send message, %s" (ArgExn exception)).

Definition register_message_handlers (operation : pyval) (h : option handler)
    : M unit :=
  let* op := hashed operation in
  let* w := get_world in
  match _message_handlers (proto w) !! op with
  | Some _ =>
      raise (StandardError "Only one handler can be registered per operation" [])
  | None => modify (set_handlers (fun t => <[op := h]> t))
  end.

Definition send_ros_service_request (message : Message)
    (callback errback : option callable) : M unit :=
  let* request_id := getitem message "id" in
  let* k := hashed request_id in
  modify (set_pending (fun t => <[k := (callback, errback)]> t)) ;>
  let* json_message := lift (json_dumps message) in
  LOGGER DEBUG "Sending ROS service request: %s" (ArgStr json_message) ;>
  self_sendMessage json_message.

Definition onConnect (peer : string) : M unit :=
  LOGGER DEBUG "Server connected: %s" (ArgStr peer).

Definition onOpen : M unit :=
  LOGGER INFO "Connection to ROS MASTER ready." (ArgStr EmptyString) ;>
  let* _ := self_factory "ready" in
  let* w := get_world in
  ready (ident (proto w)).

Definition _handle_publish (message : Message) : M unit :=
  let* _ := self_factory "emit" in
  let* topic := getitem message "topic" in
  let* msg := getitem message "msg" in
  emit topic msg.

Definition _handle_service_response (message : Message) : M unit :=
  let* request_id := getitem message "id" in
  let* k := hashed request_id in
  let* w := get_world in
  match _pending_service_requests (proto w) !! k with
  | None =>
      raise (StandardError no_service_handler [request_id])
  | Some (callback, errback) =>
      modify (set_pending (fun t => delete k t)) ;>
      if result_is_False message
      then
        match errback with
        | Some f => let* values := getitem message "values" in call f [values]
        | None => ret tt
        end
      else
        match callback with
        | Some f =>
            let* values := getitem message "values" in
            call f [ServiceResponse values]
        | None => ret tt
        end
  end.

Definition _handle_service_request (message : Message) : M unit :=
  if msg_contains "service" message
  then
    let* _ := self_factory "emit" in
    let* service := getitem message "service" in
    emit service (PyMessage message)
  else raise (ValueError "Expected service name missing in service request").

(** [handler(message)] *)
Definition run_handler (h : handler) (message : Message) : M unit :=
  match h with
  | HPublish => _handle_publish message
  | HServiceResponse => _handle_service_response message
  | HServiceRequest => _handle_service_request message
  | HCustom f => call f [PyMessage message]
  end.

Definition onMessage (payload : string) (isBinary : bool) : M unit :=
  if isBinary
  then raise (NotImplementedError "Add support for binary messages")
  else
    let* message := lift (json_loads payload) in
    let* op := getitem message "op" in
    let* k := hashed op in
    let* w := get_world in
    match _message_handlers (proto w) !! k with
    | Some (Some h) => run_handler h message
    | _ =>
        raise (StandardError no_operation_handler [op])
    end.

Definition onClose (wasClean : bool) (code : Z) (reason : string) : M unit :=
  LOGGER INFO "WebSocket connection closed: %s" (ArgStr reason).

(** A callback that returns normally and neither touches the factory nor
    makes a recorded call of its own. *)
Definition quiet (f : callable) : Prop :=
  forall args w, exists w',
    run_callable f args w = Return tt w' /\ fact w' = fact w /\ trace w' = trace w.

End Engine.

(** How often a callable was called in a trace. *)
Definition is_call_to (f : callable) (ev : event) : bool :=
  match ev with
  | EvCall g _ => bool_decide (g = f)
  | _ => false
  end.

Definition calls_to (f : callable) (tr : list event) : nat :=
  length (List.filter (is_call_to f) tr).

Definition is_log (ev : event) : bool :=
  match ev with
  | EvLog _ _ _ => true
  | _ => false
  end.

(** How often a channel was emitted on in a trace. *)
Definition is_emit_on (ch : pykey) (ev : event) : bool :=
  match ev with
  | EvEmit c _ => bool_decide (c = ch)
  | _ => false
  end.

Definition emits_on (ch : pykey) (tr : list event) : nat :=
  length (List.filter (is_emit_on ch) tr).

Section Callbacks.
Context `{Collaborators}.

(** A callback that is a well-behaved listener of channel [ch] whose
    listeners are [fs]: it returns normally, leaves [_proto] and the
    listeners of [ch] as they are, does not emit on [ch] and does not call
    any of [fs] itself.  It may log, send, talk to the protocol and
    subscribe elsewhere. *)
Definition polite (ch : pykey) (fs : list callable) (f : callable) : Prop :=
  forall args w, exists w',
    run_callable f args w = Return tt w'
    /\ _proto (fact w') = _proto (fact w)
    /\ listeners_of ch w' = listeners_of ch w
    /\ emits_on ch (trace w') = emits_on ch (trace w)
    /\ forall g, In g fs -> calls_to g (trace w') = calls_to g (trace w).

End Callbacks.

(** ** The PNG payload codec ([roslibpy/comm/pngcompression.py]) *)

Module PngCompression.

(** Python 3 keeps [bytes] and [str] apart: a [str] is a sequence of code
    points. *)
Abbreviation bytes := (list Byte.byte).
Abbreviation text := (list N).

Inductive value : Type :=
| Bytes (b : bytes)
| Str (s : text).

Inductive error : Type :=
| binascii_Error
| ValueError
| UnidentifiedImageError
| UnicodeDecodeError (position : nat).

(** The library calls of [decode_png]: [base64.standard_b64decode],
    [Image.open] of PIL on a [BytesIO] buffer, the image's [tobytes], and
    [bytes.decode("utf-8")]. *)
Class Libraries : Type := {
  Image : Type;
  standard_b64decode : text -> error + bytes;
  Image_open : bytes -> error + Image;
  tobytes : Image -> error + bytes;
  bytes_decode_utf8 : bytes -> error + text
}.

Definition and_then {A B} (r : error + A) (k : A -> error + B) : error + B :=
  match r with
  | inl e => inl e
  | inr a => k a
  end.

Definition decode_png `{Libraries} (string : text) : error + value :=
  and_then (standard_b64decode string) (fun decoded =>
  let buff := decoded in
  and_then (Image_open buff) (fun i =>
  and_then (tobytes i) (fun pixels =>
  and_then (bytes_decode_utf8 pixels) (fun s =>
  inr (Str s))))).

(** *** Reference libraries for the examples *)

Definition continuation (b : N) : bool := ((128 <=? b) && (b <=? 191))%N.

(** Strict UTF-8 decoding: shortest forms only, no surrogates, nothing
    above U+10FFFF.  [pos] is the offset of the byte under inspection. *)
Fixpoint utf8_from (pos : nat) (bs : list N) : error + text :=
  match bs with
  | [] => inr []
  | b0 :: r0 =>
      if (b0 <? 128)%N then
        and_then (utf8_from (S pos) r0) (fun t => inr (b0 :: t))
      else if ((194 <=? b0) && (b0 <=? 223))%N then
        match r0 with
        | b1 :: r1 =>
            if continuation b1 then
              and_then (utf8_from (pos + 2) r1) (fun t =>
                inr (((b0 - 192) * 64 + (b1 - 128))%N :: t))
            else inl (UnicodeDecodeError pos)
        | _ => inl (UnicodeDecodeError pos)
        end
      else if ((224 <=? b0) && (b0 <=? 239))%N then
        match r0 with
        | b1 :: b2 :: r2 =>
            let cp := ((b0 - 224) * 4096 + (b1 - 128) * 64 + (b2 - 128))%N in
            if continuation b1 && continuation b2
               && (2048 <=? cp)%N && negb ((55296 <=? cp) && (cp <=? 57343))%N
            then and_then (utf8_from (pos + 3) r2) (fun t => inr (cp :: t))
            else inl (UnicodeDecodeError pos)
        | _ => inl (UnicodeDecodeError pos)
        end
      else if ((240 <=? b0) && (b0 <=? 244))%N then
        match r0 with
        | b1 :: b2 :: b3 :: r3 =>
            let cp := ((b0 - 240) * 262144 + (b1 - 128) * 4096
                       + (b2 - 128) * 64 + (b3 - 128))%N in
            if continuation b1 && continuation b2 && continuation b3
               && (65536 <=? cp)%N && (cp <=? 1114111)%N
            then and_then (utf8_from (pos + 4) r3) (fun t => inr (cp :: t))
            else inl (UnicodeDecodeError pos)
        | _ => inl (UnicodeDecodeError pos)
        end
      else inl (UnicodeDecodeError pos)
  end.

Definition utf8_decode (b : bytes) : error + text :=
  utf8_from 0 (map Byte.to_N b).

#[local] Instance byte_eq_dec : EqDecision Byte.byte := Byte.byte_eq_dec.

Definition text_of_string (s : string) : text :=
  map Byte.to_N (list_byte_of_string s).

(** A 2x1 greyscale PNG (68 bytes) whose two pixels are 0x68 and 0x69, and
    its standard base64 text. *)
Definition tiny_png : bytes :=
  [Byte.x89; Byte.x50; Byte.x4e; Byte.x47; Byte.x0d; Byte.x0a; Byte.x1a; Byte.x0a;
   Byte.x00; Byte.x00; Byte.x00; Byte.x0d; Byte.x49; Byte.x48; Byte.x44; Byte.x52;
   Byte.x00; Byte.x00; Byte.x00; Byte.x02; Byte.x00; Byte.x00; Byte.x00; Byte.x01;
   Byte.x08; Byte.x00; Byte.x00; Byte.x00; Byte.x00; Byte.xd1; Byte.x49; Byte.x20;
   Byte.x56; Byte.x00; Byte.x00; Byte.x00; Byte.x0b; Byte.x49; Byte.x44; Byte.x41;
   Byte.x54; Byte.x78; Byte.xda; Byte.x63; Byte.xc8; Byte.xc8; Byte.x04; Byte.x00;
   Byte.x01; Byte.x3c; Byte.x00; Byte.xd2; Byte.x35; Byte.x25; Byte.x28; Byte.x04;
   Byte.x00; Byte.x00; Byte.x00; Byte.x00; Byte.x49; Byte.x45; Byte.x4e; Byte.x44;
   Byte.xae; Byte.x42; Byte.x60; Byte.x82].

Definition tiny_png_base64 : text :=
  text_of_string
    "iVBORw0KGgoAAAANSUhEUgAAAAIAAAABCAAAAADRSSBWAAAAC0lEQVR42mPIyAQAATwA0jUlKAQAAAAASUVORK5CYII=".

Definition tiny_png_pixels : bytes := [Byte.x68; Byte.x69].

(** The libraries on the example image: the two table entries are what
    [base64] and PIL return for it; every other input is refused.  An
    opened image is kept as its pixel data. *)
Definition example_libraries : Libraries := {|
  Image := bytes;
  standard_b64decode s :=
    if decide (s = tiny_png_base64) then inr tiny_png else inl binascii_Error;
  Image_open b :=
    if decide (b = tiny_png) then inr tiny_png_pixels else inl UnidentifiedImageError;
  tobytes i := inr i;
  bytes_decode_utf8 := utf8_decode
|}.

End PngCompression.

(** ** Reference collaborators and worlds for the examples *)

Module Examples.

Definition escape_char (c : ascii) : string :=
  if Ascii.eqb c "034"%char then String "\"%char (String c EmptyString)
  else if Ascii.eqb c "\"%char then String "\"%char (String c EmptyString)
  else String c EmptyString.

Fixpoint escape (s : string) : string :=
  match s with
  | EmptyString => EmptyString
  | String c rest => escape_char c ++ escape rest
  end.

Definition quoted (s : string) : string := dquote ++ escape s ++ dquote.

(** [first], then [", "] and [others] when something follows. *)
Definition joined {A} (first : string) (rest : list A) (others : string) : string :=
  match rest with
  | [] => first
  | _ :: _ => first ++ ", " ++ others
  end.

(** A JSON writer with the default separators of [json.dumps] for
    printable ASCII; a value that is not a JSON value has no rendering. *)
Fixpoint render (v : pyval) : option string :=
  match v with
  | PyNone => Some "null"
  | PyBool true => Some "true"
  | PyBool false => Some "false"
  | PyInt z => Some (pretty z)
  | PyStr s => Some (quoted s)
  | PyList l =>
      let fix items (l : list pyval) : option string :=
        match l with
        | [] => Some EmptyString
        | x :: rest =>
            match render x, items rest with
            | Some a, Some b => Some (joined a rest b)
            | _, _ => None
            end
        end in
      match items l with
      | Some body => Some ("[" ++ body ++ "]")
      | None => None
      end
  | PyDict d =>
      let fix members (d : list (string * pyval)) : option string :=
        match d with
        | [] => Some EmptyString
        | (k, x) :: rest =>
            match render x, members rest with
            | Some a, Some b => Some (joined (quoted k ++ ": " ++ a) rest b)
            | _, _ => None
            end
        end in
      match members d with
      | Some body => Some ("{" ++ body ++ "}")
      | None => None
      end
  | PyMessage _ | PyServiceResponse _ | PyProtocol _ | PyObject _ => None
  end.

Definition dumps (m : Message) : exn + string :=
  match render (PyDict m) with
  | Some s => inr s
  | None => inl (TypeError "is not JSON serializable")
  end.

(** The frames of section 8 of the specification, and a few more. *)
Definition call_add : Message :=
  [("op", PyStr "call_service"); ("service", PyStr "/add"); ("id", PyStr "1");
   ("args", PyDict [])].

Definition response_ok : Message :=
  [("op", PyStr "service_response"); ("id", PyStr "1"); ("result", PyBool true);
   ("values", PyDict [("sum", PyInt 5)])].

Definition response_failed : Message :=
  [("op", PyStr "service_response"); ("id", PyStr "1"); ("result", PyBool false);
   ("values", PyStr "error text")].

Definition response_stale : Message :=
  [("op", PyStr "service_response"); ("id", PyStr "7"); ("result", PyBool true);
   ("values", PyDict [])].

Definition publish_chatter : Message :=
  [("op", PyStr "publish"); ("topic", PyStr "/chatter");
   ("msg", PyDict [("data", PyStr "hello")])].

Definition call_without_service : Message :=
  [("op", PyStr "call_service"); ("id", PyStr "2")].

Definition response_without_values : Message :=
  [("op", PyStr "service_response"); ("id", PyStr "1"); ("result", PyBool true)].

Definition status_message : Message :=
  [("op", PyStr "status"); ("level", PyStr "info")].

Definition not_serializable : Message :=
  [("op", PyStr "publish"); ("topic", PyStr "/chatter"); ("msg", PyObject 5)].

Definition known_messages : list Message :=
  [call_add; response_ok; response_failed; response_stale; publish_chatter;
   call_without_service; status_message].

(** Decoding by table: a frame is decoded when it is the rendering of one
    of the known messages. *)
Fixpoint loads_from (table : list Message) (payload : string) : exn + Message :=
  match table with
  | [] => inl (ValueError "No JSON object could be decoded")
  | m :: rest =>
      match dumps m with
      | inr s => if String.eqb s payload then inr m else loads_from rest payload
      | inl _ => loads_from rest payload
      end
  end.

Definition loads : string -> exn + Message := loads_from known_messages.

(** Callbacks that return without touching anything, a transport that
    accepts every frame, and a reconnect policy that does nothing
    synchronously. *)
Definition collaborators : Collaborators := {|
  json_dumps := dumps;
  json_loads := loads;
  transport_sendMessage := fun _ => ret tt;
  run_callable := fun _ _ => ret tt;
  Reconnecting_clientConnectionLost := ret tt;
  Reconnecting_clientConnectionFailed := ret tt
|}.

(** The same, on a transport whose session is gone: [sendMessage]
    raises. *)
Definition collaborators_closed : Collaborators := {|
  json_dumps := dumps;
  json_loads := loads;
  transport_sendMessage := fun _ => raise (OtherStandardError 0);
  run_callable := fun _ _ => ret tt;
  Reconnecting_clientConnectionLost := ret tt;
  Reconnecting_clientConnectionFailed := ret tt
|}.

Definition on_success : callable := Callable 1.
Definition on_failure : callable := Callable 2.
Definition other_success : callable := Callable 3.
Definition other_failure : callable := Callable 4.

Definition frame_of (m : Message) : string :=
  match dumps m with
  | inr s => s
  | inl _ => EmptyString
  end.

(** A protocol built by the factory (Twisted's [buildProtocol] sets
    [factory]) with nothing pending, before the session opens. *)
Definition connected : World :=
  mkWorld (mkProtocol 1 (Some TheFactory) ∅ (_message_handlers (Protocol_init 1)))
    Factory_init [].

(** The same with the call of [call_add] in flight. *)
Definition waiting : World :=
  set_pending (fun t => <[KStr "1" := (Some on_success, Some on_failure)]> t)
    connected.

(** Two [ready] callbacks queued, and one persistent listener. *)
Definition queued : World :=
  set_listeners (fun t =>
    <[KStr "ready" := [mkListener (Callable 10) true;
                       mkListener (Callable 11) false;
                       mkListener (Callable 12) true]]> t)
    connected.

(** A persistent and a one-shot listener on the topic of
    [publish_chatter]. *)
Definition subscribed : World :=
  set_listeners (fun t =>
    <[KStr "/chatter" := [mkListener (Callable 30) false;
                          mkListener (Callable 31) true]]> t)
    connected.

(** A protocol as [__init__] leaves it, not yet attached to a factory. *)
Definition detached : World := mkWorld (Protocol_init 1) Factory_init [].

End Examples.

Import Examples.
Local Abbreviation C := Examples.collaborators.

(** * Properties *)

(** ** The monad *)

Lemma bind_Return {A B} (c : M A) (k : A -> M B) (w w' : World) (a : A) :
  c w = Return a w' -> bind c k w = k a w'.
Proof. intros Hc. unfold bind. rewrite Hc. reflexivity. Qed.

Lemma bind_Raise {A B} (c : M A) (k : A -> M B) (w w' : World) (e : exn) :
  c w = Raise e w' -> bind c k w = Raise e w'.
Proof. intros Hc. unfold bind. rewrite Hc. reflexivity. Qed.

Lemma getitem_Some (m : Message) (key : string) (v : pyval) (w : World) :
  msg_get key m = Some v -> getitem m key w = Return v w.
Proof. intros Hm. unfold getitem. rewrite Hm. reflexivity. Qed.

Lemma getitem_None (m : Message) (key : string) (w : World) :
  msg_get key m = None -> getitem m key w = Raise (KeyError key) w.
Proof. intros Hm. unfold getitem. rewrite Hm. reflexivity. Qed.

Lemma hashed_Some (v : pyval) (k : pykey) (w : World) :
  hash_key v = Some k -> hashed v w = Return k w.
Proof. intros Hv. unfold hashed. rewrite Hv. reflexivity. Qed.

Lemma hashed_None (v : pyval) (w : World) :
  hash_key v = None -> hashed v w = Raise (TypeError "unhashable type") w.
Proof. intros Hv. unfold hashed. rewrite Hv. reflexivity. Qed.

Lemma result_is_False_iff (m : Message) :
  result_is_False m = true <-> msg_get "result" m = Some (PyBool false).
Proof.
  unfold result_is_False. destruct (msg_get "result" m) as [r|]; [|split; discriminate].
  destruct r as [|[]| | | | | | | |]; simpl; split; congruence.
Qed.

Lemma msg_contains_get (key : string) (m : Message) :
  msg_contains key m = false <-> msg_get key m = None.
Proof. unfold msg_contains. destruct (msg_get key m); split; congruence. Qed.

(** Runs the lookups of a method whose outcomes are among the hypotheses. *)
Ltac lookups :=
  repeat first
    [ erewrite bind_Return by (first [ apply getitem_Some | apply hashed_Some ]; eassumption)
    | erewrite bind_Raise by (first [ apply getitem_None | apply hashed_None ]; eassumption) ].

Section Properties.
Context `{Collaborators}.

(** ** Service responses *)

Lemma pending_after_delete (k : pykey) (w : World) :
  _pending_service_requests (proto (set_pending (fun t => delete k t) w)) !! k = None.
Proof. simpl. apply lookup_delete_eq. Qed.

Lemma handle_service_response_unmatched (message : Message) (w : World)
    (request_id : pyval) (k : pykey) :
  msg_get "id" message = Some request_id ->
  hash_key request_id = Some k ->
  _pending_service_requests (proto w) !! k = None ->
  _handle_service_response message w
  = Raise (StandardError no_service_handler [request_id]) w.
Proof.
  intros Hid Hk Hnone. unfold _handle_service_response. lookups.
  unfold bind, get_world. rewrite Hnone. reflexivity.
Qed.

(** C1: a [service_response] whose id is pending takes its entry out of
    the registry before anything else.  Then [result] literally [False]
    selects the errback and anything else the callback.  A selected
    continuation that is [None] makes the branch a no-op.  A selected
    continuation that is there is called once, the errback with
    [message['values']] and the callback with
    [ServiceResponse(message['values'])], when the message carries [values];
    when it does not, [KeyError] is raised after the removal and no
    continuation is called.  The same response delivered again in the world
    the continuation starts in finds nothing to resolve. *)
Theorem handle_service_response_pending (message : Message) (w : World)
    (request_id : pyval) (k : pykey) (callback errback : option callable) :
  msg_get "id" message = Some request_id ->
  hash_key request_id = Some k ->
  _pending_service_requests (proto w) !! k = Some (callback, errback) ->
  let consumed := set_pending (fun t => delete k t) w in
  _pending_service_requests (proto consumed) !! k = None
  /\ trace consumed = trace w
  /\ (forall f values,
        msg_get "result" message = Some (PyBool false) ->
        errback = Some f ->
        msg_get "values" message = Some values ->
        _handle_service_response message w = call f [values] consumed)
  /\ (forall f values,
        msg_get "result" message <> Some (PyBool false) ->
        callback = Some f ->
        msg_get "values" message = Some values ->
        _handle_service_response message w
        = call f [ServiceResponse values] consumed)
  /\ (msg_get "result" message = Some (PyBool false) ->
      errback = None ->
      _handle_service_response message w = Return tt consumed)
  /\ (msg_get "result" message <> Some (PyBool false) ->
      callback = None ->
      _handle_service_response message w = Return tt consumed)
  /\ (msg_get "result" message = Some (PyBool false) ->
      errback <> None ->
      msg_get "values" message = None ->
      _handle_service_response message w = Raise (KeyError "values") consumed)
  /\ (msg_get "result" message <> Some (PyBool false) ->
      callback <> None ->
      msg_get "values" message = None ->
      _handle_service_response message w = Raise (KeyError "values") consumed)
  /\ _handle_service_response message consumed
     = Raise (StandardError no_service_handler [request_id]) consumed.
Proof.
  intros Hid Hk Hpending consumed.
  assert (Hrun : _handle_service_response message w
                 = (if result_is_False message
                    then match errback with
                         | Some f =>
                             (let* values := getitem message "values" in
                              call f [values]) consumed
                         | None => Return tt consumed
                         end
                    else match callback with
                         | Some f =>
                             (let* values := getitem message "values" in
                              call f [ServiceResponse values]) consumed
                         | None => Return tt consumed
                         end)).
  { unfold _handle_service_response. lookups.
    unfold bind at 1. unfold get_world. rewrite Hpending.
    unfold bind at 1. unfold modify. fold consumed.
    destruct (result_is_False message); [destruct errback|destruct callback];
      reflexivity. }
  assert (Hfalse : msg_get "result" message = Some (PyBool false) ->
                   result_is_False message = true).
  { intros Hr. apply result_is_False_iff. exact Hr. }
  assert (Hother : msg_get "result" message <> Some (PyBool false) ->
                   result_is_False message = false).
  { intros Hr. destruct (result_is_False message) eqn:Hb; [|reflexivity].
    apply result_is_False_iff in Hb. contradiction. }
  split; [apply pending_after_delete|]. split; [reflexivity|].
  repeat split.
  - intros f values Hr -> Hvalues. rewrite Hrun, (Hfalse Hr). lookups. reflexivity.
  - intros f values Hr -> Hvalues. rewrite Hrun, (Hother Hr). lookups. reflexivity.
  - intros Hr ->. rewrite Hrun, (Hfalse Hr). reflexivity.
  - intros Hr ->. rewrite Hrun, (Hother Hr). reflexivity.
  - intros Hr Hsome Hvalues. rewrite Hrun, (Hfalse Hr).
    destruct errback as [f|]; [|contradiction]. lookups. reflexivity.
  - intros Hr Hsome Hvalues. rewrite Hrun, (Hother Hr).
    destruct callback as [f|]; [|contradiction]. lookups. reflexivity.
  - apply handle_service_response_unmatched with (k := k); try assumption.
    apply pending_after_delete.
Qed.

(** C10: when the id of a [service_response] is not pending (it is
    missing, unhashable, or has no entry), the handler raises before it
    mutates anything: the outcome carries the very world it started in, so
    the registry is the same after the failure as before. *)
Theorem handle_service_response_unmatched_atomic (message : Message) (w : World) :
  (forall request_id k,
      msg_get "id" message = Some request_id ->
      hash_key request_id = Some k ->
      _pending_service_requests (proto w) !! k = None) ->
  exists e, _handle_service_response message w = Raise e w
            /\ is_StandardError e = true.
Proof.
  intros Hnot.
  destruct (msg_get "id" message) as [request_id|] eqn:Hid.
  - destruct (hash_key request_id) as [k|] eqn:Hk.
    + exists (StandardError no_service_handler [request_id]). split; [|reflexivity].
      apply handle_service_response_unmatched with (k := k); [exact Hid|exact Hk|].
      apply (Hnot request_id k); [reflexivity|exact Hk].
    + exists (TypeError "unhashable type"). split; [|reflexivity].
      unfold _handle_service_response. lookups. reflexivity.
  - exists (KeyError "id"). split; [|reflexivity].
    unfold _handle_service_response. lookups. reflexivity.
Qed.

(** ** Routing of inbound frames *)

Lemma onMessage_runs_handler (payload : string) (w : World) (message : Message)
    (op : pyval) (k : pykey) (h : handler) :
  json_loads payload = inr message ->
  msg_get "op" message = Some op ->
  hash_key op = Some k ->
  _message_handlers (proto w) !! k = Some (Some h) ->
  onMessage payload false w = run_handler h message w.
Proof.
  intros Hloads Hop Hk Hh. unfold onMessage. rewrite Hloads. simpl lift.
  unfold bind at 1. unfold ret. lookups.
  unfold bind, get_world. rewrite Hh. reflexivity.
Qed.

Lemma onMessage_no_handler (payload : string) (w : World) (message : Message)
    (op : pyval) (k : pykey) :
  json_loads payload = inr message ->
  msg_get "op" message = Some op ->
  hash_key op = Some k ->
  _message_handlers (proto w) !! k = None
  \/ _message_handlers (proto w) !! k = Some None ->
  onMessage payload false w = Raise (StandardError no_operation_handler [op]) w.
Proof.
  intros Hloads Hop Hk Hh. unfold onMessage. rewrite Hloads. simpl lift.
  unfold bind at 1. unfold ret. lookups.
  unfold bind, get_world. destruct Hh as [Hh|Hh]; rewrite Hh; reflexivity.
Qed.

(** C6: a text frame that decodes to a message whose [op] has a handler in
    [_message_handlers] is routed to that handler, which is called once
    with the message and nothing else happens; when the [op] has no
    handler, [onMessage] raises the "No handler registered for operation"
    error and leaves the world as it was. *)
Theorem onMessage_routes (payload : string) (w : World) (message : Message)
    (op : pyval) (k : pykey) :
  json_loads payload = inr message ->
  msg_get "op" message = Some op ->
  hash_key op = Some k ->
  (forall h, _message_handlers (proto w) !! k = Some (Some h) ->
             onMessage payload false w = run_handler h message w)
  /\ (forall f, _message_handlers (proto w) !! k = Some (Some (HCustom f)) ->
                onMessage payload false w
                = run_callable f [PyMessage message]
                    (add_event (EvCall f [PyMessage message]) w))
  /\ (_message_handlers (proto w) !! k = None
      \/ _message_handlers (proto w) !! k = Some None ->
      onMessage payload false w
      = Raise (StandardError no_operation_handler [op]) w).
Proof.
  intros Hloads Hop Hk. repeat split.
  - intros h Hh. eapply onMessage_runs_handler; eassumption.
  - intros f Hf.
    rewrite (onMessage_runs_handler payload w message op k (HCustom f)) by assumption.
    reflexivity.
  - intros Hh. eapply onMessage_no_handler; eassumption.
Qed.

(** C4: a [service_response] frame whose id is not pending is neither
    logged nor dropped by the engine: [onMessage] raises the "No handler
    registered for service request ID" error to its caller, the transport,
    and the world it leaves is the one it found, with nothing added to the
    log and nothing changed in the registry. *)
Theorem onMessage_unmatched_response_raises (payload : string) (w : World)
    (message : Message) (request_id : pyval) (k : pykey) :
  json_loads payload = inr message ->
  msg_get "op" message = Some (PyStr "service_response") ->
  _message_handlers (proto w) !! KStr "service_response" = Some (Some HServiceResponse) ->
  msg_get "id" message = Some request_id ->
  hash_key request_id = Some k ->
  _pending_service_requests (proto w) !! k = None ->
  onMessage payload false w
  = Raise (StandardError no_service_handler [request_id]) w.
Proof.
  intros Hloads Hop Hh Hid Hk Hnone.
  rewrite (onMessage_runs_handler payload w message (PyStr "service_response")
             (KStr "service_response") HServiceResponse); try assumption; [|reflexivity].
  simpl. eapply handle_service_response_unmatched; eassumption.
Qed.

(** ** Service requests to be served *)

(** C7: for a [call_service] message, [_handle_service_request] raises
    [ValueError] when the message has no [service] field; otherwise, on a
    protocol attached to its factory, it is one [emit] on the factory, on
    the channel [message['service']], whose payload is the whole message. *)
Theorem handle_service_request_emits (message : Message) (w : World) :
  factory (proto w) = Some TheFactory ->
  (msg_get "service" message = None ->
   _handle_service_request message w
   = Raise (ValueError "Expected service name missing in service request") w)
  /\ (forall service,
        msg_get "service" message = Some service ->
        _handle_service_request message w = emit service (PyMessage message) w)
  /\ (forall service ch,
        msg_get "service" message = Some service ->
        hash_key service = Some ch ->
        _handle_service_request message w
        = fire_all ch (PyMessage message) (listeners_of ch w)
            (add_event (EvEmit ch (PyMessage message)) w)).
Proof.
  intros Hfactory.
  assert (Hemit : forall service,
             msg_get "service" message = Some service ->
             _handle_service_request message w = emit service (PyMessage message) w).
  { intros service Hservice. unfold _handle_service_request, msg_contains.
    rewrite Hservice.
    unfold bind at 1. unfold self_factory, bind at 1, get_world.
    rewrite Hfactory. unfold ret. lookups. reflexivity. }
  split; [|split].
  - intros Hnone. unfold _handle_service_request.
    apply msg_contains_get in Hnone. rewrite Hnone. reflexivity.
  - exact Hemit.
  - intros service ch Hservice Hch. rewrite (Hemit service Hservice).
    unfold emit. lookups. reflexivity.
Qed.

(** ** Sending *)

(** C5: [send_ros_message] serializes the message and hands the frame to
    [sendMessage]; a [StandardError] raised by the serializer or by the
    transport is caught and logged, and the call returns normally, so the
    caller never observes such an error; only an exception outside
    [StandardError] gets through. *)
Theorem send_ros_message_swallows_errors (message : Message) (w : World) :
  let failed e w' :=
    if is_StandardError e
    then Return tt (add_event (EvLog EXCEPTION "Failed to send message, %s" (ArgExn e)) w')
    else Raise e w' in
  send_ros_message message w
  = match json_dumps message with
    | inl e => failed e w
    | inr frame =>
        match transport_sendMessage frame
                (add_event (EvSend frame)
                   (add_event (EvLog DEBUG "Sending ROS message: %s" (ArgStr frame)) w))
        with
        | Return _ w' => Return tt w'
        | Raise e w' => failed e w'
        end
    end
  /\ match send_ros_message message w with
     | Return _ _ => True
     | Raise e _ => is_StandardError e = false
     end.
Proof.
  intros failed.
  assert (Heq : send_ros_message message w
                = match json_dumps message with
                  | inl e => failed e w
                  | inr frame =>
                      match transport_sendMessage frame
                              (add_event (EvSend frame)
                                 (add_event (EvLog DEBUG "Sending ROS message: %s"
                                               (ArgStr frame)) w))
                      with
                      | Return _ w' => Return tt w'
                      | Raise e w' => failed e w'
                      end
                  end).
  { unfold send_ros_message, try_except_StandardError, failed.
    destruct (json_dumps message) as [e|frame]; simpl.
    - unfold bind, raise. simpl. destruct (is_StandardError e); reflexivity.
    - unfold bind, ret, LOGGER, self_sendMessage, bind, modify. simpl.
      destruct (transport_sendMessage frame _) as [[] w'|e w']; [reflexivity|].
      destruct (is_StandardError e); reflexivity. }
  split; [exact Heq|].
  rewrite Heq. unfold failed.
  destruct (json_dumps message) as [e|frame].
  - destruct (is_StandardError e) eqn:He; [exact I|exact He].
  - destruct (transport_sendMessage frame _) as [[] w'|e w']; [exact I|].
    destruct (is_StandardError e) eqn:He; [exact I|exact He].
Qed.

(** C3: [send_ros_service_request] stores [(callback, errback)] under
    [message['id']] before it serializes and transmits: the transport is
    entered in a world where the entry is registered, and a serializer
    error leaves it registered.  Nothing checks whether the id is already
    pending; the entry of an earlier request with that id is overwritten.
    Without an [id] the call raises [KeyError] and does nothing else. *)
Theorem send_ros_service_request_registers_first (message : Message)
    (callback errback : option callable) (w : World) :
  (msg_get "id" message = None ->
   send_ros_service_request message callback errback w = Raise (KeyError "id") w)
  /\ (forall request_id k,
        msg_get "id" message = Some request_id ->
        hash_key request_id = Some k ->
        let registered := set_pending (fun t => <[k := (callback, errback)]> t) w in
        _pending_service_requests (proto registered) !! k = Some (callback, errback)
        /\ send_ros_service_request message callback errback w
           = match json_dumps message with
             | inl e => Raise e registered
             | inr frame =>
                 transport_sendMessage frame
                   (add_event (EvSend frame)
                      (add_event (EvLog DEBUG "Sending ROS service request: %s"
                                    (ArgStr frame)) registered))
             end).
Proof.
  split.
  - intros Hnone. unfold send_ros_service_request. lookups. reflexivity.
  - intros request_id k Hid Hk registered. split.
    + simpl. apply lookup_insert_eq.
    + unfold send_ros_service_request. lookups.
      unfold bind at 1. unfold modify. fold registered.
      destruct (json_dumps message) as [e|frame]; reflexivity.
Qed.

(** ** Disconnects *)

(** C2: a disconnect resolves nothing.  [onClose] only logs, and
    [clientConnectionLost] logs, runs the reconnect policy of the base
    class and clears [_proto]; when that policy itself leaves the protocol
    alone and calls no callback, then after the two events every pending
    request is still in the registry and no continuation has been called. *)
Theorem disconnect_resolves_nothing (wasClean : bool) (code : Z)
    (reason lost : string) (w : World) :
  (forall w0, exists w1,
      Reconnecting_clientConnectionLost w0 = Return tt w1
      /\ proto w1 = proto w0
      /\ forall f, calls_to f (trace w1) = calls_to f (trace w0)) ->
  exists w',
    (onClose wasClean code reason ;> clientConnectionLost lost) w = Return tt w'
    /\ _pending_service_requests (proto w') = _pending_service_requests (proto w)
    /\ (forall f, calls_to f (trace w') = calls_to f (trace w))
    /\ _proto (fact w') = None.
Proof.
  intros Hpolicy.
  set (w0 := add_event (EvSuper "clientConnectionLost")
               (add_event (EvLog DEBUG "Lost connection. Reason: %s" (ArgStr lost))
                  (add_event (EvLog INFO "WebSocket connection closed: %s"
                                (ArgStr reason)) w))).
  destruct (Hpolicy w0) as (w1 & Hrun & Hproto & Hcalls).
  exists (set__proto None w1).
  assert (Hrun' : (onClose wasClean code reason ;> clientConnectionLost lost) w
                  = Return tt (set__proto None w1)).
  { unfold onClose, clientConnectionLost, LOGGER, bind, modify. fold w0.
    rewrite Hrun. reflexivity. }
  split; [exact Hrun'|]. split; [|split].
  - simpl. rewrite Hproto. reflexivity.
  - intros f. simpl. rewrite Hcalls. unfold w0, calls_to. simpl.
    rewrite !List.filter_app. simpl. rewrite !List.app_nil_r. reflexivity.
  - reflexivity.
Qed.


(** ** Readiness *)

Lemma remove_first_once (kept rest : list listener) (l : listener) :
  Forall (fun x => l_once x = false) kept ->
  l_once l = true ->
  remove_first l (kept ++ l :: rest)%list = (kept ++ rest)%list.
Proof.
  intros Hkept Hl. induction Hkept as [|x kept Hx Hkept IH]; simpl.
  - destruct (decide (l = l)); [reflexivity|congruence].
  - destruct (decide (x = l)) as [->|_]; [congruence|].
    rewrite IH. reflexivity.
Qed.

Lemma listeners_of_fact (ch : pykey) (w w' : World) :
  fact w' = fact w -> listeners_of ch w' = listeners_of ch w.
Proof. intros Hfact. unfold listeners_of. rewrite Hfact. reflexivity. Qed.

(** Firing quiet listeners: each is called once, in order, with the
    payload; the one-shot ones are gone afterwards, the others stay. *)
Lemma fire_all_quiet (ch : pykey) (payload : pyval) (ls : list listener) :
  forall (kept : list listener) (w : World),
    Forall (fun l => quiet (l_callback l)) ls ->
    Forall (fun l => l_once l = false) kept ->
    listeners_of ch w = (kept ++ ls)%list ->
    exists w',
      fire_all ch payload ls w = Return tt w'
      /\ listeners_of ch w'
         = (kept ++ List.filter (fun l => negb (l_once l)) ls)%list
      /\ trace w'
         = (trace w ++ map (fun l => EvCall (l_callback l) [payload]) ls)%list
      /\ _proto (fact w') = _proto (fact w).
Proof.
  induction ls as [|l rest IH]; intros kept w Hquiet Hkept Hls.
  - exists w. simpl. rewrite !List.app_nil_r in *. auto.
  - inversion Hquiet as [|? ? Hl Hrest]; subst.
    destruct (Hl [payload] (add_event (EvCall (l_callback l) [payload]) w))
      as (w1 & Hrun & Hfact & Htrace).
    simpl in Hfact, Htrace.
    destruct (l_once l) eqn:Honce.
    + set (w2 := set_listeners (fun t =>
                   <[ch := remove_first l (default [] (t !! ch))]> t) w1).
      assert (Hstep : fire ch payload l w = Return tt w2).
      { unfold fire, call, bind, modify. rewrite Hrun, Honce. reflexivity. }
      assert (Hls2 : listeners_of ch w2 = (kept ++ rest)%list).
      { unfold w2, listeners_of. simpl. rewrite lookup_insert_eq. simpl.
        fold (listeners_of ch w1). rewrite (listeners_of_fact ch w w1 Hfact), Hls.
        apply remove_first_once; assumption. }
      destruct (IH kept w2 Hrest Hkept Hls2) as (w' & Hfire & Hls' & Htrace' & Hproto').
      exists w'. simpl fire_all. rewrite (bind_Return _ _ _ _ _ Hstep).
      split; [exact Hfire|]. simpl. rewrite Honce. simpl.
      split; [exact Hls'|]. split.
      * rewrite Htrace'. unfold w2. simpl. rewrite Htrace.
        rewrite <- List.app_assoc. reflexivity.
      * rewrite Hproto'. unfold w2. simpl. rewrite Hfact. reflexivity.
    + assert (Hstep : fire ch payload l w = Return tt w1).
      { unfold fire, call, bind, modify. rewrite Hrun, Honce. reflexivity. }
      assert (Hls1 : listeners_of ch w1 = ((kept ++ [l]) ++ rest)%list).
      { rewrite (listeners_of_fact ch w w1 Hfact), Hls, <- List.app_assoc. reflexivity. }
      assert (Hkept1 : Forall (fun x => l_once x = false) (kept ++ [l])%list).
      { apply Forall_app. split; [assumption|]. constructor; [assumption|constructor]. }
      destruct (IH (kept ++ [l])%list w1 Hrest Hkept1 Hls1)
        as (w' & Hfire & Hls' & Htrace' & Hproto').
      exists w'. simpl fire_all. rewrite (bind_Return _ _ _ _ _ Hstep).
      split; [exact Hfire|]. simpl. rewrite Honce. simpl.
      split; [rewrite Hls', <- List.app_assoc; reflexivity|]. split.
      * rewrite Htrace', Htrace. rewrite <- List.app_assoc. reflexivity.
      * rewrite Hproto', Hfact. reflexivity.
Qed.

Lemma subscribe_fresh (callback : callable) (b : bool) (ls : list listener) :
  ~ In callback (map l_callback ls) ->
  subscribe callback b ls = (ls ++ [mkListener callback b])%list.
Proof.
  induction ls as [|l rest IH]; simpl; intros Hnew; [reflexivity|].
  destruct (decide (l_callback l = callback)) as [Heq|_].
  - exfalso. apply Hnew. left. exact Heq.
  - rewrite IH; [reflexivity|]. intros Hin. apply Hnew. right. exact Hin.
Qed.

Lemma subscribe_entry (callback : callable) (b : bool) (ls : list listener) :
  In (mkListener callback b) (subscribe callback b ls).
Proof.
  induction ls as [|l rest IH]; simpl; [left; reflexivity|].
  destruct (decide (l_callback l = callback)); [left; reflexivity|right; exact IH].
Qed.

Lemma subscribe_callbacks (callback x : callable) (b : bool) (ls : list listener) :
  In x (map l_callback (subscribe callback b ls))
  <-> x = callback \/ In x (map l_callback ls).
Proof.
  induction ls as [|l rest IH]; simpl.
  - split; [intros [<-|[]]; left; reflexivity|intros [->|[]]; left; reflexivity].
  - destruct (decide (l_callback l = callback)) as [Heq|Hne]; simpl.
    + rewrite Heq. split; [intros [<-|Hin]; auto|intros [->|[<-|Hin]]; auto].
    + rewrite IH. split; [intros [Hl|[Hc|Hin]]; auto|intros [Hc|[Hl|Hin]]; auto].
Qed.

Lemma subscribe_NoDup (callback : callable) (b : bool) (ls : list listener) :
  List.NoDup (map l_callback ls) -> List.NoDup (map l_callback (subscribe callback b ls)).
Proof.
  induction ls as [|l rest IH]; simpl; intros Hnd.
  - constructor; [intros Hin; inversion Hin|constructor].
  - inversion Hnd as [|? ? Hnotin Hrest]; subst.
    destruct (decide (l_callback l = callback)) as [Heq|Hne]; simpl.
    + rewrite <- Heq. constructor; assumption.
    + constructor; [|apply IH; exact Hrest].
      intros Hin. apply subscribe_callbacks in Hin. destruct Hin as [Hc|Hin];
        [contradiction|]. apply Hnotin. exact Hin.
Qed.

Lemma subscribe_same (callback : callable) (b : bool) (ls : list listener) :
  List.NoDup (map l_callback ls) ->
  In (mkListener callback b) ls ->
  subscribe callback b ls = ls.
Proof.
  induction ls as [|l rest IH]; simpl; intros Hnd Hin; [contradiction|].
  inversion Hnd as [|? ? Hnotin Hrest]; subst.
  destruct Hin as [->|Hin]; simpl.
  - destruct (decide (callback = callback)); [reflexivity|congruence].
  - destruct (decide (l_callback l = callback)) as [Heq|_].
    + exfalso. apply Hnotin. rewrite Heq.
      change callback with (l_callback (mkListener callback b)).
      apply List.in_map. exact Hin.
    + rewrite IH; [reflexivity|exact Hrest|exact Hin].
Qed.

Lemma calls_to_snoc (g f : callable) (args : list pyval) (tr : list event) :
  calls_to g (tr ++ [EvCall f args])
  = (calls_to g tr + count_occ callable_eq_dec [f] g)%nat.
Proof.
  unfold calls_to. rewrite List.filter_app, List.length_app. simpl.
  destruct (callable_eq_dec f g) as [Heq|Hne].
  - rewrite bool_decide_eq_true_2 by exact Heq. reflexivity.
  - rewrite bool_decide_eq_false_2 by exact Hne. reflexivity.
Qed.

Lemma emits_on_snoc_call (ch : pykey) (f : callable) (args : list pyval)
    (tr : list event) :
  emits_on ch (tr ++ [EvCall f args]) = emits_on ch tr.
Proof.
  unfold emits_on. rewrite List.filter_app. simpl. rewrite List.app_nil_r. reflexivity.
Qed.

(** Firing polite listeners: all return, the one-shot ones are gone
    afterwards, nothing was emitted on the channel meanwhile, and each of the
    callables [fs] was called as often as it is listed. *)
Lemma fire_all_polite (ch : pykey) (fs : list callable) (payload : pyval)
    (ls : list listener) :
  forall (kept : list listener) (w : World),
    Forall (fun l => polite ch fs (l_callback l)) ls ->
    Forall (fun l => l_once l = false) kept ->
    listeners_of ch w = (kept ++ ls)%list ->
    exists w',
      fire_all ch payload ls w = Return tt w'
      /\ listeners_of ch w'
         = (kept ++ List.filter (fun l => negb (l_once l)) ls)%list
      /\ _proto (fact w') = _proto (fact w)
      /\ emits_on ch (trace w') = emits_on ch (trace w)
      /\ forall g, In g fs ->
                   calls_to g (trace w')
                   = (calls_to g (trace w)
                      + count_occ callable_eq_dec (map l_callback ls) g)%nat.
Proof.
  induction ls as [|l rest IH]; intros kept w Hpolite Hkept Hls.
  - exists w. simpl. rewrite !List.app_nil_r in *. repeat split; auto.
  - inversion Hpolite as [|? ? Hl Hrest]; subst.
    destruct (Hl [payload] (add_event (EvCall (l_callback l) [payload]) w))
      as (w1 & Hrun & Hproto1 & Hls1 & Hemits1 & Hcalls1).
    simpl in Hproto1, Hemits1. rewrite emits_on_snoc_call in Hemits1.
    change (listeners_of ch (add_event (EvCall (l_callback l) [payload]) w))
      with (listeners_of ch w) in Hls1.
    assert (Hcalls1' : forall g, In g fs ->
               calls_to g (trace w1)
               = (calls_to g (trace w) + count_occ callable_eq_dec [l_callback l] g)%nat).
    { intros g Hg. rewrite (Hcalls1 g Hg). simpl trace. apply calls_to_snoc. }
    assert (Hcount : forall g,
               count_occ callable_eq_dec (map l_callback (l :: rest)) g
               = (count_occ callable_eq_dec [l_callback l] g
                  + count_occ callable_eq_dec (map l_callback rest) g)%nat).
    { intros g. simpl. destruct (callable_eq_dec (l_callback l) g); reflexivity. }
    destruct (l_once l) eqn:Honce.
    + set (w2 := set_listeners (fun t =>
                   <[ch := remove_first l (default [] (t !! ch))]> t) w1).
      assert (Hstep : fire ch payload l w = Return tt w2).
      { unfold fire, call, bind, modify. rewrite Hrun, Honce. reflexivity. }
      assert (Hls2 : listeners_of ch w2 = (kept ++ rest)%list).
      { unfold w2, listeners_of. simpl. rewrite lookup_insert_eq. simpl.
        fold (listeners_of ch w1). rewrite Hls1, Hls.
        apply remove_first_once; assumption. }
      destruct (IH kept w2 Hrest Hkept Hls2)
        as (w' & Hfire & Hls' & Hproto' & Hemits' & Hcalls').
      exists w'. simpl fire_all. rewrite (bind_Return _ _ _ _ _ Hstep).
      split; [exact Hfire|].
      split; [cbn [List.filter]; rewrite Honce; cbn [negb]; exact Hls'|].
      split; [rewrite Hproto'; exact Hproto1|].
      split; [rewrite Hemits'; exact Hemits1|].
      intros g Hg. rewrite (Hcalls' g Hg), Hcount.
      change (trace w2) with (trace w1). rewrite (Hcalls1' g Hg). lia.
    + assert (Hstep : fire ch payload l w = Return tt w1).
      { unfold fire, call, bind, modify. rewrite Hrun, Honce. reflexivity. }
      assert (Hls1' : listeners_of ch w1 = ((kept ++ [l]) ++ rest)%list).
      { rewrite Hls1, Hls, <- List.app_assoc. reflexivity. }
      assert (Hkept1 : Forall (fun x => l_once x = false) (kept ++ [l])%list).
      { apply Forall_app. split; [assumption|]. constructor; [assumption|constructor]. }
      destruct (IH (kept ++ [l])%list w1 Hrest Hkept1 Hls1')
        as (w' & Hfire & Hls' & Hproto' & Hemits' & Hcalls').
      exists w'. simpl fire_all. rewrite (bind_Return _ _ _ _ _ Hstep).
      split; [exact Hfire|].
      split; [cbn [List.filter]; rewrite Honce; cbn [negb];
              rewrite Hls', <- List.app_assoc; reflexivity|].
      split; [rewrite Hproto'; exact Hproto1|].
      split; [rewrite Hemits'; exact Hemits1|].
      intros g Hg. rewrite (Hcalls' g Hg), Hcount, (Hcalls1' g Hg). lia.
Qed.

Lemma once_ready (callback : callable) (w : World) :
  once (PyStr "ready") callback w
  = Return tt (set_listeners (fun t =>
      <[KStr "ready" := subscribe callback true (default [] (t !! KStr "ready"))]> t) w).
Proof. reflexivity. Qed.

Lemma listeners_after_once_ready (callback : callable) (w : World) :
  listeners_of (KStr "ready")
    (set_listeners (fun t =>
       <[KStr "ready" := subscribe callback true (default [] (t !! KStr "ready"))]> t) w)
  = subscribe callback true (listeners_of (KStr "ready") w).
Proof. unfold listeners_of. simpl. rewrite lookup_insert_eq. reflexivity. Qed.

(** C8: [on_ready] calls the callback at once with the live protocol when
    [_proto] is set.  Otherwise it is [once('ready', callback)]: the
    callback is not called and becomes a one-shot listener of [ready], with
    one entry (added at the end when it was not registered, nothing changed
    when it was already queued).  When the session opens, [onOpen] calls
    [ready], which sets [_proto] and emits [ready]: with polite listeners
    there is exactly one emission on [ready], every listener registered at
    that moment is called exactly once, and afterwards the one-shot ones,
    the queued callbacks, are no longer registered.  With quiet listeners
    the calls are made in registration order, with the protocol. *)
Theorem on_ready_and_ready (callback : callable) (w : World) :
  let ls := listeners_of (KStr "ready") w in
  factory (proto w) = Some TheFactory ->
  List.NoDup (map l_callback ls) ->
  Forall (fun l => polite (KStr "ready") (map l_callback ls) (l_callback l)) ls ->
  (forall p, _proto (fact w) = Some p ->
             on_ready callback w = call callback [PyProtocol p] w)
  /\ (_proto (fact w) = None ->
      on_ready callback w = once (PyStr "ready") callback w
      /\ exists w',
           on_ready callback w = Return tt w'
           /\ trace w' = trace w
           /\ _proto (fact w') = None
           /\ In (mkListener callback true) (listeners_of (KStr "ready") w')
           /\ List.NoDup (map l_callback (listeners_of (KStr "ready") w'))
           /\ (~ In callback (map l_callback ls) ->
               listeners_of (KStr "ready") w'
               = (ls ++ [mkListener callback true])%list)
           /\ (In (mkListener callback true) ls ->
               listeners_of (KStr "ready") w' = ls))
  /\ onOpen w
     = ready (ident (proto w))
         (add_event (EvLog INFO "Connection to ROS MASTER ready." (ArgStr EmptyString)) w)
  /\ (forall p, exists w',
        ready p w = Return tt w'
        /\ _proto (fact w') = Some p
        /\ emits_on (KStr "ready") (trace w') = S (emits_on (KStr "ready") (trace w))
        /\ (forall l, In l ls ->
                      calls_to (l_callback l) (trace w')
                      = S (calls_to (l_callback l) (trace w)))
        /\ listeners_of (KStr "ready") w'
           = List.filter (fun l => negb (l_once l)) ls)
  /\ (Forall (fun l => quiet (l_callback l)) ls ->
      forall p, exists w',
        ready p w = Return tt w'
        /\ trace w'
           = (trace w ++ EvEmit (KStr "ready") (PyProtocol p)
                :: map (fun l => EvCall (l_callback l) [PyProtocol p]) ls)%list).
Proof.
  intros ls Hfactory Hnodup Hpolite. split; [|split; [|split; [|split]]].
  - intros p Hp. unfold on_ready, bind at 1, get_world. rewrite Hp. reflexivity.
  - intros Hnone.
    assert (Hrun : on_ready callback w = once (PyStr "ready") callback w).
    { unfold on_ready, bind at 1, get_world. rewrite Hnone. reflexivity. }
    split; [exact Hrun|]. eexists. rewrite Hrun, once_ready.
    split; [reflexivity|]. split; [reflexivity|]. split; [exact Hnone|].
    rewrite listeners_after_once_ready. fold ls.
    split; [apply subscribe_entry|]. split; [apply subscribe_NoDup; exact Hnodup|].
    split; [apply subscribe_fresh|apply subscribe_same; exact Hnodup].
  - unfold onOpen, LOGGER, bind at 1, modify.
    unfold bind at 1. unfold self_factory, bind at 1, get_world. simpl.
    rewrite Hfactory. reflexivity.
  - intros p.
    set (w0 := add_event (EvEmit (KStr "ready") (PyProtocol p)) (set__proto (Some p) w)).
    assert (Hls : listeners_of (KStr "ready") w0 = ([] ++ ls)%list) by reflexivity.
    destruct (fire_all_polite (KStr "ready") (map l_callback ls) (PyProtocol p) ls []
                w0 Hpolite (List.Forall_nil _) Hls)
      as (w' & Hfire & Hls' & Hproto' & Hemits' & Hcalls').
    exists w'. split; [|split; [|split; [|split]]].
    + unfold ready, emit, bind, modify, get_world. simpl. exact Hfire.
    + rewrite Hproto'. reflexivity.
    + rewrite Hemits'. unfold w0, emits_on. simpl trace.
      rewrite List.filter_app, List.length_app. cbn [List.filter is_emit_on].
      rewrite bool_decide_eq_true_2 by reflexivity. simpl. apply Nat.add_1_r.
    + intros l Hl.
      assert (Hin : In (l_callback l) (map l_callback ls)) by (apply List.in_map; exact Hl).
      rewrite (Hcalls' _ Hin).
      rewrite (proj1 (List.NoDup_count_occ' callable_eq_dec (map l_callback ls))
                 Hnodup _ Hin).
      unfold w0, calls_to. simpl trace. rewrite List.filter_app. simpl.
      rewrite List.app_nil_r. apply Nat.add_1_r.
    + exact Hls'.
  - intros Hquiet p.
    set (w0 := add_event (EvEmit (KStr "ready") (PyProtocol p)) (set__proto (Some p) w)).
    assert (Hls : listeners_of (KStr "ready") w0 = ([] ++ ls)%list) by reflexivity.
    destruct (fire_all_quiet (KStr "ready") (PyProtocol p) ls [] w0 Hquiet
                (List.Forall_nil _) Hls)
      as (w' & Hfire & _ & Htrace' & _).
    exists w'. split.
    + unfold ready, emit, bind, modify, get_world. simpl. exact Hfire.
    + rewrite Htrace'. unfold w0. simpl. rewrite <- List.app_assoc. reflexivity.
Qed.

End Properties.

(** ** The payload codec *)

Section CodecProperties.
Context `{PngCompression.Libraries}.

(** C9: on an input that [standard_b64decode] and PIL accept,
    [decode_png] returns the pixel bytes decoded as UTF-8, a [str], or the
    error of that decoding; it never returns a [bytes] value. *)
Theorem decode_png_returns_text (string : PngCompression.text)
    (decoded pixels : PngCompression.bytes) (i : PngCompression.Image) :
  PngCompression.standard_b64decode string = inr decoded ->
  PngCompression.Image_open decoded = inr i ->
  PngCompression.tobytes i = inr pixels ->
  PngCompression.decode_png string
  = match PngCompression.bytes_decode_utf8 pixels with
    | inl e => inl e
    | inr s => inr (PngCompression.Str s)
    end
  /\ forall b, PngCompression.decode_png string <> inr (PngCompression.Bytes b).
Proof.
  intros Hdecoded Hopen Hpixels.
  assert (Heq : PngCompression.decode_png string
                = match PngCompression.bytes_decode_utf8 pixels with
                  | inl e => inl e
                  | inr s => inr (PngCompression.Str s)
                  end).
  { unfold PngCompression.decode_png. rewrite Hdecoded. simpl.
    rewrite Hopen. simpl. rewrite Hpixels. simpl.
    destruct (PngCompression.bytes_decode_utf8 pixels); reflexivity. }
  split; [exact Heq|].
  intros b. rewrite Heq.
  destruct (PngCompression.bytes_decode_utf8 pixels); discriminate.
Qed.

End CodecProperties.

(** * Examples *)

(** The responses of section 8 resolve the pending call of [call_add]
    through its callback or its errback. *)
Lemma handle_service_response_pending_witness :
  _pending_service_requests (proto waiting) !! KStr "1"
  = Some (Some on_success, Some on_failure)
  /\ @_handle_service_response C response_ok waiting
     = @call C on_success [ServiceResponse (PyDict [("sum", PyInt 5)])]
         (set_pending (fun t => delete (KStr "1") t) waiting)
  /\ @_handle_service_response C response_failed waiting
     = @call C on_failure [PyStr "error text"]
         (set_pending (fun t => delete (KStr "1") t) waiting).
Proof.
  assert (Hpending : _pending_service_requests (proto waiting) !! KStr "1"
                     = Some (Some on_success, Some on_failure)).
  { simpl. apply lookup_insert_eq. }
  split; [exact Hpending|]. split.
  - destruct (@handle_service_response_pending C response_ok waiting (PyStr "1")
                (KStr "1") (Some on_success) (Some on_failure)
                eq_refl eq_refl Hpending) as (_ & _ & _ & Hsuccess & _).
    apply Hsuccess; [discriminate|reflexivity|reflexivity].
  - destruct (@handle_service_response_pending C response_failed waiting (PyStr "1")
                (KStr "1") (Some on_success) (Some on_failure)
                eq_refl eq_refl Hpending) as (_ & _ & Hfailure & _).
    apply Hfailure; reflexivity.
Defined.

(** Against C1 as specified, on a pending response without [values]: the
    entry is consumed, [KeyError] is raised, and the callback that the
    dispatch rule selects is not called. *)
Lemma pending_response_without_values :
  _pending_service_requests (proto waiting) !! KStr "1"
  = Some (Some on_success, Some on_failure)
  /\ msg_get "result" response_without_values = Some (PyBool true)
  /\ msg_get "values" response_without_values = None
  /\ (exists w',
        @_handle_service_response C response_without_values waiting
        = Raise (KeyError "values") w'
        /\ _pending_service_requests (proto w') !! KStr "1" = None
        /\ calls_to on_success (trace w') = 0%nat
        /\ calls_to on_failure (trace w') = 0%nat)
  /\ ~ (exists values w0,
          @_handle_service_response C response_without_values waiting
          = @call C on_success [ServiceResponse values] w0).
Proof.
  assert (Hraise : @_handle_service_response C response_without_values waiting
                   = Raise (KeyError "values")
                       (set_pending (fun t => delete (KStr "1") t) waiting)).
  { vm_compute. reflexivity. }
  split; [simpl; apply lookup_insert_eq|]. split; [reflexivity|]. split; [reflexivity|].
  split.
  - eexists. split; [exact Hraise|]. split; [simpl; apply lookup_delete_eq|].
    split; reflexivity.
  - intros (values & w0 & Hcall). rewrite Hraise in Hcall. discriminate.
Qed.

Lemma stale_id_not_pending :
  forall request_id k,
    msg_get "id" response_stale = Some request_id ->
    hash_key request_id = Some k ->
    _pending_service_requests (proto waiting) !! k = None.
Proof.
  intros request_id k Hid Hk. simpl in Hid. injection Hid as <-.
  simpl in Hk. injection Hk as <-.
  simpl. rewrite lookup_insert_ne by discriminate. apply lookup_empty.
Qed.

Lemma handle_service_response_unmatched_atomic_witness :
  exists e, @_handle_service_response C response_stale waiting = Raise e waiting
            /\ is_StandardError e = true.
Proof.
  exact (@handle_service_response_unmatched_atomic C response_stale waiting
           stale_id_not_pending).
Defined.

Lemma loads_response_stale : loads (frame_of response_stale) = inr response_stale.
Proof. vm_compute. reflexivity. Qed.

Lemma onMessage_unmatched_response_raises_witness :
  @onMessage C (frame_of response_stale) false waiting
  = Raise (StandardError no_service_handler [PyStr "7"]) waiting.
Proof.
  apply (@onMessage_unmatched_response_raises C (frame_of response_stale) waiting
           response_stale (PyStr "7") (KStr "7")).
  - exact loads_response_stale.
  - reflexivity.
  - vm_compute. reflexivity.
  - reflexivity.
  - reflexivity.
  - apply (stale_id_not_pending (PyStr "7") (KStr "7")); reflexivity.
Defined.

(** Against C4 as specified, on the stale response: [onMessage] does not
    return having logged the error, it raises and logs nothing. *)
Lemma unmatched_response_not_logged_and_dropped :
  trace waiting = []
  /\ @onMessage C (frame_of response_stale) false waiting
     = Raise (StandardError no_service_handler [PyStr "7"]) waiting
  /\ ~ (exists w', @onMessage C (frame_of response_stale) false waiting = Return tt w'
                   /\ existsb is_log (trace w') = true).
Proof.
  assert (Hraise : @onMessage C (frame_of response_stale) false waiting
                   = Raise (StandardError no_service_handler [PyStr "7"]) waiting).
  { vm_compute. reflexivity. }
  split; [reflexivity|]. split; [exact Hraise|].
  intros (w' & Hreturn & _). rewrite Hraise in Hreturn. discriminate.
Qed.

Lemma loads_publish_chatter : loads (frame_of publish_chatter) = inr publish_chatter.
Proof. vm_compute. reflexivity. Qed.

Lemma loads_status_message : loads (frame_of status_message) = inr status_message.
Proof. vm_compute. reflexivity. Qed.

(** A [publish] frame goes to [_handle_publish]; a [status] frame has no
    handler. *)
Lemma onMessage_routes_witness :
  @onMessage C (frame_of publish_chatter) false connected
  = @run_handler C HPublish publish_chatter connected
  /\ @onMessage C (frame_of status_message) false connected
     = Raise (StandardError no_operation_handler [PyStr "status"]) connected.
Proof.
  split.
  - destruct (@onMessage_routes C (frame_of publish_chatter) connected publish_chatter
                (PyStr "publish") (KStr "publish")
                loads_publish_chatter eq_refl eq_refl) as (Hrun & _ & _).
    apply Hrun. vm_compute. reflexivity.
  - destruct (@onMessage_routes C (frame_of status_message) connected status_message
                (PyStr "status") (KStr "status")
                loads_status_message eq_refl eq_refl) as (_ & _ & Hnone).
    apply Hnone. left. vm_compute. reflexivity.
Defined.

Lemma handle_service_request_emits_witness :
  @_handle_service_request C call_add connected
  = @emit C (PyStr "/add") (PyMessage call_add) connected
  /\ @_handle_service_request C call_without_service connected
     = Raise (ValueError "Expected service name missing in service request") connected.
Proof.
  split.
  - destruct (@handle_service_request_emits C call_add connected eq_refl)
      as (_ & Hemit & _).
    apply Hemit. reflexivity.
  - destruct (@handle_service_request_emits C call_without_service connected eq_refl)
      as (Hmissing & _).
    apply Hmissing. reflexivity.
Defined.

(** ** Sending *)

Lemma send_ros_message_swallows_errors_witness :
  @send_ros_message C not_serializable connected
  = Return tt
      (add_event (EvLog EXCEPTION "Failed to send message, %s"
                    (ArgExn (TypeError "is not JSON serializable"))) connected).
Proof.
  destruct (@send_ros_message_swallows_errors C not_serializable connected)
    as (Heq & _).
  rewrite Heq. reflexivity.
Defined.

(** Against C5 as specified, twice over: a message that cannot be serialized and
    a transport that refuses the frame both end in a normal return with the
    error in the log, not in an error that the caller observes. *)
Lemma send_errors_are_not_raised :
  dumps not_serializable = inl (TypeError "is not JSON serializable")
  /\ ~ (exists e w', @send_ros_message C not_serializable connected = Raise e w')
  /\ (forall frame, @transport_sendMessage collaborators_closed frame connected
                    = Raise (OtherStandardError 0) connected)
  /\ ~ (exists e w',
          @send_ros_message collaborators_closed publish_chatter connected = Raise e w').
Proof.
  split; [reflexivity|]. split; [|split].
  - intros (e & w' & Hraise). vm_compute in Hraise. discriminate.
  - intros frame. reflexivity.
  - intros (e & w' & Hraise). vm_compute in Hraise. discriminate.
Qed.

Lemma send_ros_service_request_registers_first_witness :
  @send_ros_service_request C call_without_service (Some on_success) None connected
  = @transport_sendMessage C (frame_of call_without_service)
      (add_event (EvSend (frame_of call_without_service))
         (add_event (EvLog DEBUG "Sending ROS service request: %s"
                       (ArgStr (frame_of call_without_service)))
            (set_pending (fun t => <[KStr "2" := (Some on_success, None)]> t) connected)))
  /\ @send_ros_service_request C status_message (Some on_success) None connected
     = Raise (KeyError "id") connected.
Proof.
  destruct (@send_ros_service_request_registers_first C call_without_service
              (Some on_success) None connected) as (_ & Hsend).
  destruct (@send_ros_service_request_registers_first C status_message
              (Some on_success) None connected) as (Hmissing & _).
  split.
  - destruct (Hsend (PyStr "2") (KStr "2") eq_refl eq_refl) as (_ & Heq).
    rewrite Heq. reflexivity.
  - apply Hmissing. reflexivity.
Defined.

(** Against C3 as specified, on an id that is already pending: the request
    is not refused, the entry of the first request is replaced and the
    frame is sent. *)
Lemma pending_id_is_overwritten :
  _pending_service_requests (proto waiting) !! KStr "1"
  = Some (Some on_success, Some on_failure)
  /\ (exists w',
        @send_ros_service_request C call_add (Some other_success) (Some other_failure)
          waiting = Return tt w'
        /\ _pending_service_requests (proto w') !! KStr "1"
           = Some (Some other_success, Some other_failure)
        /\ trace w'
           = [EvLog DEBUG "Sending ROS service request: %s" (ArgStr (frame_of call_add));
              EvSend (frame_of call_add)])
  /\ ~ (exists e w',
          @send_ros_service_request C call_add (Some other_success) (Some other_failure)
            waiting = Raise e w').
Proof.
  split; [simpl; apply lookup_insert_eq|]. split.
  - eexists. split; [vm_compute; reflexivity|]. split; vm_compute; reflexivity.
  - intros (e & w' & Hraise). vm_compute in Hraise. discriminate.
Qed.

(** ** Disconnects *)

Lemma disconnect_resolves_nothing_witness :
  exists w',
    (@onClose true 1000 "going away" ;> @clientConnectionLost C "connection lost") waiting
    = Return tt w'
    /\ _pending_service_requests (proto w') = _pending_service_requests (proto waiting)
    /\ (forall f, calls_to f (trace w') = calls_to f (trace waiting))
    /\ _proto (fact w') = None.
Proof.
  apply (@disconnect_resolves_nothing C true 1000 "going away" "connection lost" waiting).
  intros w0. exists w0. split; [reflexivity|]. split; [reflexivity|]. intros f. reflexivity.
Defined.

(** Against C2 as specified, with one request pending: after the
    disconnect its errback has not been called and it is still pending. *)
Lemma disconnect_leaves_request_pending :
  exists w',
    (@onClose true 1000 "going away" ;> @clientConnectionLost C "connection lost") waiting
    = Return tt w'
    /\ calls_to on_failure (trace w') = 0%nat
    /\ calls_to on_failure (trace w') <> 1%nat
    /\ _pending_service_requests (proto w') !! KStr "1"
       = Some (Some on_success, Some on_failure).
Proof.
  eexists. split; [vm_compute; reflexivity|].
  split; [reflexivity|]. split; [discriminate|]. vm_compute. reflexivity.
Qed.

(** ** Readiness *)

Lemma example_callbacks_polite (ch : pykey) (fs : list callable) (f : callable) :
  @polite C ch fs f.
Proof.
  intros args w. exists w. split; [reflexivity|]. split; [reflexivity|].
  split; [reflexivity|]. split; [reflexivity|]. intros g _. reflexivity.
Qed.

Lemma ready_listeners_connected : @listeners_of (KStr "ready") connected = [].
Proof. reflexivity. Qed.

Lemma ready_listeners_queued :
  @listeners_of (KStr "ready") queued
  = [mkListener (Callable 10) true; mkListener (Callable 11) false;
     mkListener (Callable 12) true].
Proof. vm_compute. reflexivity. Qed.

Lemma ready_listeners_queued_NoDup :
  List.NoDup (map l_callback (listeners_of (KStr "ready") queued)).
Proof.
  rewrite ready_listeners_queued. simpl.
  repeat constructor; simpl; intuition discriminate.
Qed.

Lemma on_ready_and_ready_witness :
  (exists w',
      @on_ready C (Callable 20) connected = Return tt w'
      /\ trace w' = []
      /\ @listeners_of (KStr "ready") w' = [mkListener (Callable 20) true])
  /\ exists w',
       @ready C 1 queued = Return tt w'
       /\ _proto (fact w') = Some 1%nat
       /\ emits_on (KStr "ready") (trace w') = 1%nat
       /\ calls_to (Callable 10) (trace w') = 1%nat
       /\ calls_to (Callable 11) (trace w') = 1%nat
       /\ calls_to (Callable 12) (trace w') = 1%nat
       /\ @listeners_of (KStr "ready") w' = [mkListener (Callable 11) false].
Proof.
  split.
  - destruct (@on_ready_and_ready C (Callable 20) connected eq_refl)
      as (_ & Hqueue & _).
    + rewrite ready_listeners_connected. constructor.
    + rewrite ready_listeners_connected. constructor.
    + destruct (Hqueue eq_refl) as (_ & w' & Hrun & Htrace & _ & _ & _ & Hfresh & _).
      exists w'. split; [exact Hrun|]. split; [exact Htrace|].
      rewrite Hfresh; [reflexivity|]. intros Hin. exact Hin.
  - destruct (@on_ready_and_ready C (Callable 20) queued eq_refl
                ready_listeners_queued_NoDup)
      as (_ & _ & _ & Hready & _).
    + apply List.Forall_forall. intros l _. apply example_callbacks_polite.
    + destruct (Hready 1%nat) as (w' & Hrun & Hproto & Hemits & Hcalls & Hls).
      assert (Hin : forall l,
                 In l [mkListener (Callable 10) true; mkListener (Callable 11) false;
                       mkListener (Callable 12) true] ->
                 In l (listeners_of (KStr "ready") queued)).
      { intros l Hl. rewrite ready_listeners_queued. exact Hl. }
      exists w'. split; [exact Hrun|]. split; [exact Hproto|]. split; [exact Hemits|].
      split; [exact (Hcalls (mkListener (Callable 10) true)
                       (Hin _ (or_introl eq_refl)))|].
      split; [exact (Hcalls (mkListener (Callable 11) false)
                       (Hin _ (or_intror (or_introl eq_refl))))|].
      split; [exact (Hcalls (mkListener (Callable 12) true)
                       (Hin _ (or_intror (or_intror (or_introl eq_refl)))))|].
      rewrite Hls, ready_listeners_queued. reflexivity.
Defined.

(** ** The payload codec *)

Lemma decode_png_returns_text_witness :
  @PngCompression.decode_png PngCompression.example_libraries
    PngCompression.tiny_png_base64
  = inr (PngCompression.Str [104; 105]%N).
Proof.
  destruct (@decode_png_returns_text PngCompression.example_libraries
              PngCompression.tiny_png_base64 PngCompression.tiny_png
              PngCompression.tiny_png_pixels PngCompression.tiny_png_pixels)
    as (Heq & _).
  - vm_compute. reflexivity.
  - vm_compute. reflexivity.
  - reflexivity.
  - rewrite Heq. reflexivity.
Defined.

(** Against C9 as specified, on the example image: the codec returns the
    text of its two pixels, not the two raw bytes. *)
Lemma decode_png_does_not_return_bytes :
  @PngCompression.standard_b64decode PngCompression.example_libraries
    PngCompression.tiny_png_base64 = inr PngCompression.tiny_png
  /\ @PngCompression.Image_open PngCompression.example_libraries
       PngCompression.tiny_png = inr PngCompression.tiny_png_pixels
  /\ @PngCompression.tobytes PngCompression.example_libraries
       PngCompression.tiny_png_pixels = inr PngCompression.tiny_png_pixels
  /\ @PngCompression.decode_png PngCompression.example_libraries
       PngCompression.tiny_png_base64
     <> inr (PngCompression.Bytes PngCompression.tiny_png_pixels).
Proof.
  split; [vm_compute; reflexivity|]. split; [vm_compute; reflexivity|].
  split; [reflexivity|].
  intros Hbytes. vm_compute in Hbytes. discriminate.
Qed.

(** ** Scenarios of section 8 *)

(** A service call and its successful response: the frame is sent with the
    request registered, the callback receives the [ServiceResponse], and the
    registry is empty again. *)
Example call_then_response :
  exists w',
    (@send_ros_service_request C call_add (Some on_success) (Some on_failure) ;>
     @onMessage C (frame_of response_ok) false) connected = Return tt w'
    /\ trace w'
       = [EvLog DEBUG "Sending ROS service request: %s" (ArgStr (frame_of call_add));
          EvSend (frame_of call_add);
          EvCall on_success [ServiceResponse (PyDict [("sum", PyInt 5)])]]
    /\ _pending_service_requests (proto w') = ∅.
Proof.
  eexists. split; [vm_compute; reflexivity|]. split; vm_compute; reflexivity.
Qed.

(** The failed response goes to the errback with the bare [values]. *)
Example call_then_failure :
  exists w',
    (@send_ros_service_request C call_add (Some on_success) (Some on_failure) ;>
     @onMessage C (frame_of response_failed) false) connected = Return tt w'
    /\ trace w'
       = [EvLog DEBUG "Sending ROS service request: %s" (ArgStr (frame_of call_add));
          EvSend (frame_of call_add);
          EvCall on_failure [PyStr "error text"]]
    /\ _pending_service_requests (proto w') = ∅.
Proof.
  eexists. split; [vm_compute; reflexivity|]. split; vm_compute; reflexivity.
Qed.

(** The same response delivered twice: the second delivery raises and calls
    nothing. *)
Example response_delivered_twice :
  exists w',
    (@send_ros_service_request C call_add (Some on_success) (Some on_failure) ;>
     @onMessage C (frame_of response_ok) false ;>
     @onMessage C (frame_of response_ok) false) connected
    = Raise (StandardError no_service_handler [PyStr "1"]) w'
    /\ calls_to on_success (trace w') = 1%nat
    /\ calls_to on_failure (trace w') = 0%nat.
Proof.
  eexists. split; [vm_compute; reflexivity|]. split; vm_compute; reflexivity.
Qed.

(** A callback given to [on_ready] before the session opens is called when
    it opens, and not again when the session is lost and opens anew; given
    once more while the session is open, it is called at once. *)
Example ready_is_one_shot :
  exists w',
    (@on_ready C on_success ;>
     @onOpen C ;>
     @clientConnectionLost C "connection lost" ;>
     @onOpen C ;>
     @on_ready C on_success) connected = Return tt w'
    /\ List.filter (is_call_to on_success) (trace w')
       = [EvCall on_success [PyProtocol 1]; EvCall on_success [PyProtocol 1]]
    /\ List.filter (fun ev => match ev with EvEmit _ _ => true | _ => false end) (trace w')
       = [EvEmit (KStr "ready") (PyProtocol 1); EvEmit (KStr "ready") (PyProtocol 1)]
    /\ @listeners_of (KStr "ready") w' = [].
Proof.
  eexists. split; [vm_compute; reflexivity|]. split; [|split]; vm_compute; reflexivity.
Qed.

(** A callback given to [on_ready] twice before the session opens has one
    entry and is called once. *)
Example ready_callback_queued_twice :
  exists w',
    (@on_ready C on_success ;> @on_ready C on_success ;> @ready C 1) connected
    = Return tt w'
    /\ trace w'
       = [EvEmit (KStr "ready") (PyProtocol 1); EvCall on_success [PyProtocol 1]]
    /\ @listeners_of (KStr "ready") w' = [].
Proof.
  eexists. split; [vm_compute; reflexivity|]. split; vm_compute; reflexivity.
Qed.

(** A binary frame is refused before any decoding. *)
Example binary_frame_refused :
  @onMessage C (frame_of publish_chatter) true connected
  = Raise (NotImplementedError "Add support for binary messages") connected.
Proof. reflexivity. Qed.

(** A second handler for an operation is refused, a first one for a new
    operation is stored and then used. *)
Example register_then_route :
  register_message_handlers (PyStr "publish") (Some (HCustom on_success)) connected
  = Raise (StandardError "Only one handler can be registered per operation" []) connected
  /\ exists w',
       (register_message_handlers (PyStr "status") (Some (HCustom on_success)) ;>
        @onMessage C (frame_of status_message) false) connected = Return tt w'
       /\ trace w' = [EvCall on_success [PyMessage status_message]].
Proof.
  split; [vm_compute; reflexivity|].
  eexists. split; vm_compute; reflexivity.
Qed.

(** * Further properties of the engine *)

Section Handlers.
Context `{Collaborators}.

(** ** Registration of handlers *)

(** X1: [register_message_handlers] never overwrites.  A call either
    raises and leaves the world as it was, or returns having added one
    entry under an operation that had none; in both cases every handler
    that was registered before is still registered, unchanged. *)
Theorem register_message_handlers_never_overwrites (operation : pyval)
    (h : option handler) (w : World) :
  match register_message_handlers operation h w with
  | Raise e w' => w' = w
  | Return _ w' =>
      exists k, hash_key operation = Some k
                /\ _message_handlers (proto w) !! k = None
                /\ w' = set_handlers (fun t => <[k := h]> t) w
  end
  /\ (forall k x,
        _message_handlers (proto w) !! k = Some x ->
        match register_message_handlers operation h w with
        | Raise _ w' | Return _ w' => _message_handlers (proto w') !! k = Some x
        end).
Proof.
  unfold register_message_handlers.
  destruct (hash_key operation) as [op|] eqn:Hop; lookups.
  - unfold bind, get_world.
    destruct (_message_handlers (proto w) !! op) as [old|] eqn:Hold; simpl.
    + split; [reflexivity|]. intros k x Hk. exact Hk.
    + split; [exists op; auto|]. intros k x Hk.
      rewrite lookup_insert_ne; [exact Hk|]. intros ->. congruence.
  - split; [reflexivity|]. intros k x Hk. exact Hk.
Qed.

(** X2: a handler registered for a new operation is the one [onMessage]
    calls for the next frame of that operation: registering [f] and then
    receiving the frame is one call of [f] with the decoded message, in the
    world where [f] is registered. *)
Theorem register_then_onMessage (payload : string) (message : Message)
    (op : pyval) (k : pykey) (f : callable) (w : World) :
  json_loads payload = inr message ->
  msg_get "op" message = Some op ->
  hash_key op = Some k ->
  _message_handlers (proto w) !! k = None ->
  (register_message_handlers op (Some (HCustom f)) ;> onMessage payload false) w
  = call f [PyMessage message]
      (set_handlers (fun t => <[k := Some (HCustom f)]> t) w).
Proof.
  intros Hloads Hop Hk Hnone.
  assert (Hreg : register_message_handlers op (Some (HCustom f)) w
                 = Return tt (set_handlers (fun t => <[k := Some (HCustom f)]> t) w)).
  { unfold register_message_handlers. lookups.
    unfold bind, get_world. rewrite Hnone. reflexivity. }
  rewrite (bind_Return _ _ _ _ _ Hreg).
  rewrite (onMessage_runs_handler payload _ message op k (HCustom f)); try assumption.
  - reflexivity.
  - simpl. apply lookup_insert_eq.
Qed.

(** X3: registering [None] for an operation occupies it without handling
    it: a later registration for the same operation is refused as a
    duplicate, and a frame of that operation still raises the "No handler
    registered for operation" error. *)
Theorem register_None_occupies (payload : string) (message : Message)
    (op : pyval) (k : pykey) (h : option handler) (w : World) :
  json_loads payload = inr message ->
  msg_get "op" message = Some op ->
  hash_key op = Some k ->
  _message_handlers (proto w) !! k = None ->
  let occupied := set_handlers (fun t => <[k := None]> t) w in
  register_message_handlers op None w = Return tt occupied
  /\ register_message_handlers op h occupied
     = Raise (StandardError "Only one handler can be registered per operation" [])
         occupied
  /\ onMessage payload false occupied
     = Raise (StandardError no_operation_handler [op]) occupied.
Proof.
  intros Hloads Hop Hk Hnone occupied.
  assert (Hocc : _message_handlers (proto occupied) !! k = Some None).
  { simpl. apply lookup_insert_eq. }
  split; [|split].
  - unfold register_message_handlers. lookups.
    unfold bind, get_world. rewrite Hnone. reflexivity.
  - unfold register_message_handlers. lookups.
    unfold bind, get_world. rewrite Hocc. reflexivity.
  - eapply onMessage_no_handler; try eassumption. right. exact Hocc.
Qed.

(** ** Routing on a protocol as [__init__] leaves it *)

Lemma init_handlers_lookup (n : nat) (s : string) :
  _message_handlers (Protocol_init n) !! KStr s
  = if String.eqb s "publish" then Some (Some HPublish)
    else if String.eqb s "service_response" then Some (Some HServiceResponse)
    else if String.eqb s "call_service" then Some (Some HServiceRequest)
    else None.
Proof.
  simpl.
  destruct (String.eqb_spec s "publish") as [->|Hp]; [apply lookup_insert_eq|].
  rewrite lookup_insert_ne by congruence.
  destruct (String.eqb_spec s "service_response") as [->|Hr]; [apply lookup_insert_eq|].
  rewrite lookup_insert_ne by congruence.
  destruct (String.eqb_spec s "call_service") as [->|Hc]; [apply lookup_insert_eq|].
  rewrite lookup_insert_ne by congruence.
  apply lookup_empty.
Qed.

(** X4: with the handler table of [__init__], a frame is routed by its
    [op] string to [_handle_publish], [_handle_service_response] or
    [_handle_service_request], and a frame with any other [op] (such as
    [status]) raises the "No handler registered for operation" error with
    the world unchanged. *)
Theorem fresh_protocol_routing (payload : string) (message : Message)
    (s : string) (n : nat) (w : World) :
  _message_handlers (proto w) = _message_handlers (Protocol_init n) ->
  json_loads payload = inr message ->
  msg_get "op" message = Some (PyStr s) ->
  onMessage payload false w
  = if String.eqb s "publish" then _handle_publish message w
    else if String.eqb s "service_response" then _handle_service_response message w
    else if String.eqb s "call_service" then _handle_service_request message w
    else Raise (StandardError no_operation_handler [PyStr s]) w.
Proof.
  intros Hinit Hloads Hop.
  pose proof (init_handlers_lookup n s) as Hlookup. rewrite <- Hinit in Hlookup.
  destruct (String.eqb s "publish").
  { exact (onMessage_runs_handler payload w message (PyStr s) (KStr s) HPublish
             Hloads Hop eq_refl Hlookup). }
  destruct (String.eqb s "service_response").
  { exact (onMessage_runs_handler payload w message (PyStr s) (KStr s) HServiceResponse
             Hloads Hop eq_refl Hlookup). }
  destruct (String.eqb s "call_service").
  { exact (onMessage_runs_handler payload w message (PyStr s) (KStr s) HServiceRequest
             Hloads Hop eq_refl Hlookup). }
  apply (onMessage_no_handler payload w message (PyStr s) (KStr s) Hloads Hop eq_refl).
  left. exact Hlookup.
Qed.

(** X5: [onMessage] never returns without having run a handler, and it
    changes nothing before it runs one: for every frame it either is the
    run of the one handler registered for the decoded message's [op], from
    the world as it was, or it raises and leaves the world as it was
    (binary frame, undecodable payload, missing or unhashable [op], no
    handler). *)
Theorem onMessage_dispatches_or_raises (payload : string) (isBinary : bool)
    (w : World) :
  (exists message op k h,
      isBinary = false
      /\ json_loads payload = inr message
      /\ msg_get "op" message = Some op
      /\ hash_key op = Some k
      /\ _message_handlers (proto w) !! k = Some (Some h)
      /\ onMessage payload isBinary w = run_handler h message w)
  \/ (exists e, onMessage payload isBinary w = Raise e w).
Proof.
  destruct isBinary; [right; eexists; reflexivity|].
  destruct (json_loads payload) as [e|message] eqn:Hloads.
  { right. exists e. unfold onMessage. rewrite Hloads. reflexivity. }
  destruct (msg_get "op" message) as [op|] eqn:Hop.
  2:{ right. eexists. unfold onMessage. rewrite Hloads. simpl lift.
      unfold bind at 1. unfold ret. lookups. reflexivity. }
  destruct (hash_key op) as [k|] eqn:Hk.
  2:{ right. eexists. unfold onMessage. rewrite Hloads. simpl lift.
      unfold bind at 1. unfold ret. lookups. reflexivity. }
  destruct (_message_handlers (proto w) !! k) as [[h|]|] eqn:Hh.
  - left. exists message, op, k, h. repeat split; try assumption; try reflexivity.
    apply (onMessage_runs_handler payload w message op k h); assumption.
  - right. eexists. apply (onMessage_no_handler payload w message op k); auto.
  - right. eexists. apply (onMessage_no_handler payload w message op k); auto.
Qed.

End Handlers.

Section Sessions.
Context `{Collaborators}.

(** ** Publications *)

Lemma emit_quiet (channel payload : pyval) (ch : pykey) (w : World) :
  hash_key channel = Some ch ->
  Forall (fun l => quiet (l_callback l)) (listeners_of ch w) ->
  exists w',
    emit channel payload w = Return tt w'
    /\ listeners_of ch w' = List.filter (fun l => negb (l_once l)) (listeners_of ch w)
    /\ trace w'
       = (trace w ++ EvEmit ch payload
            :: map (fun l => EvCall (l_callback l) [payload]) (listeners_of ch w))%list
    /\ _proto (fact w') = _proto (fact w).
Proof.
  intros Hch Hquiet.
  set (w0 := add_event (EvEmit ch payload) w).
  assert (Hls : listeners_of ch w0 = ([] ++ listeners_of ch w)%list) by reflexivity.
  destruct (fire_all_quiet ch payload (listeners_of ch w) [] w0 Hquiet
              (List.Forall_nil _) Hls) as (w' & Hfire & Hls' & Htrace' & Hproto').
  exists w'. split; [|split; [|split]].
  - unfold emit. lookups. unfold bind, modify, get_world. exact Hfire.
  - exact Hls'.
  - rewrite Htrace'. unfold w0. simpl. rewrite <- List.app_assoc. reflexivity.
  - exact Hproto'.
Qed.

Lemma self_factory_attached (attr : string) (w : World) :
  factory (proto w) = Some TheFactory -> self_factory attr w = Return TheFactory w.
Proof. intros Hf. unfold self_factory, bind, get_world. rewrite Hf. reflexivity. Qed.

Lemma self_factory_detached (attr : string) (w : World) :
  factory (proto w) = None -> self_factory attr w = Raise (AttributeError attr) w.
Proof. intros Hf. unfold self_factory, bind, get_world. rewrite Hf. reflexivity. Qed.

(** X6: a [publish] frame reaches the listeners of its topic.  On a
    protocol attached to its factory, with the built-in handler in place and
    quiet listeners, [onMessage] makes one emission on the channel
    [message['topic']] and calls every listener of that channel once, in
    registration order, with [message['msg']] alone (not the envelope);
    one-shot listeners are gone afterwards, and with no listener the frame
    is accepted and nothing is called. *)
Theorem publish_reaches_listeners (payload : string) (message : Message)
    (topic msg : pyval) (ch : pykey) (w : World) :
  json_loads payload = inr message ->
  msg_get "op" message = Some (PyStr "publish") ->
  _message_handlers (proto w) !! KStr "publish" = Some (Some HPublish) ->
  factory (proto w) = Some TheFactory ->
  msg_get "topic" message = Some topic ->
  hash_key topic = Some ch ->
  msg_get "msg" message = Some msg ->
  Forall (fun l => quiet (l_callback l)) (listeners_of ch w) ->
  exists w',
    onMessage payload false w = Return tt w'
    /\ trace w'
       = (trace w ++ EvEmit ch msg
            :: map (fun l => EvCall (l_callback l) [msg]) (listeners_of ch w))%list
    /\ listeners_of ch w' = List.filter (fun l => negb (l_once l)) (listeners_of ch w).
Proof.
  intros Hloads Hop Hh Hfactory Htopic Hch Hmsg Hquiet.
  destruct (emit_quiet topic msg ch w Hch Hquiet) as (w' & Hemit & Hls & Htrace & _).
  exists w'. split; [|split; assumption].
  rewrite (onMessage_runs_handler payload w message (PyStr "publish") (KStr "publish")
             HPublish Hloads Hop eq_refl Hh).
  simpl. unfold _handle_publish.
  rewrite (bind_Return _ _ _ _ _ (self_factory_attached "emit" w Hfactory)).
  lookups. exact Hemit.
Qed.

(** X7: a [publish] message that lacks [topic], or has a topic but lacks
    [msg], raises [KeyError] for the missing field before anything is
    emitted; the world is unchanged and no listener is called. *)
Theorem handle_publish_missing_field (message : Message) (w : World) :
  factory (proto w) = Some TheFactory ->
  (msg_get "topic" message = None ->
   _handle_publish message w = Raise (KeyError "topic") w)
  /\ (msg_get "topic" message <> None ->
      msg_get "msg" message = None ->
      _handle_publish message w = Raise (KeyError "msg") w).
Proof.
  intros Hfactory. split.
  - intros Htopic. unfold _handle_publish.
    rewrite (bind_Return _ _ _ _ _ (self_factory_attached "emit" w Hfactory)).
    lookups. reflexivity.
  - intros Hsome Hmsg. destruct (msg_get "topic" message) as [topic|] eqn:Htopic;
      [|contradiction].
    unfold _handle_publish.
    rewrite (bind_Return _ _ _ _ _ (self_factory_attached "emit" w Hfactory)).
    lookups. reflexivity.
Qed.

(** X13: on a protocol whose [factory] is still [None], as [__init__]
    leaves it, everything that goes through the factory raises
    [AttributeError]: [onOpen] after its log line, [_handle_publish] before
    it looks at the message, and [_handle_service_request] once it has found
    the [service] field; a message without [service] still gets its
    [ValueError]. *)
Theorem detached_protocol_raises (message : Message) (w : World) :
  factory (proto w) = None ->
  onOpen w
  = Raise (AttributeError "ready")
      (add_event (EvLog INFO "Connection to ROS MASTER ready." (ArgStr EmptyString)) w)
  /\ _handle_publish message w = Raise (AttributeError "emit") w
  /\ _handle_service_request message w
     = if msg_contains "service" message
       then Raise (AttributeError "emit") w
       else Raise (ValueError "Expected service name missing in service request") w.
Proof.
  intros Hnone. split; [|split].
  - unfold onOpen, LOGGER. unfold bind at 1. unfold modify.
    apply bind_Raise. apply self_factory_detached. exact Hnone.
  - unfold _handle_publish. apply bind_Raise. apply self_factory_detached. exact Hnone.
  - unfold _handle_service_request. destruct (msg_contains "service" message);
      [|reflexivity].
    apply bind_Raise. apply self_factory_detached. exact Hnone.
Qed.

(** ** Readiness across connections *)

Lemma calls_to_app_other (f : callable) (tr : list event) (ev : event) :
  is_call_to f ev = false -> calls_to f (tr ++ [ev]) = calls_to f tr.
Proof.
  intros Hev. unfold calls_to. rewrite List.filter_app. simpl. rewrite Hev.
  rewrite List.app_nil_r. reflexivity.
Qed.

Lemma calls_to_emit_map (g : callable) (ch : pykey) (payload : pyval)
    (ls : list listener) (tr : list event) :
  calls_to g (tr ++ EvEmit ch payload
                :: map (fun l => EvCall (l_callback l) [payload]) ls)
  = (calls_to g tr + count_occ callable_eq_dec (map l_callback ls) g)%nat.
Proof.
  unfold calls_to. rewrite List.filter_app, List.length_app. f_equal.
  cbn [List.filter is_call_to].
  induction ls as [|l rest IH]; [reflexivity|].
  cbn [map List.filter is_call_to count_occ].
  destruct (callable_eq_dec (l_callback l) g) as [Heq|Hne].
  - rewrite bool_decide_eq_true_2 by exact Heq. simpl. rewrite IH. reflexivity.
  - rewrite bool_decide_eq_false_2 by exact Hne. exact IH.
Qed.

Lemma NoDup_callback_unique (ls : list listener) (a b : listener) :
  List.NoDup (map l_callback ls) ->
  In a ls -> In b ls -> l_callback a = l_callback b -> a = b.
Proof.
  induction ls as [|l rest IH]; simpl; intros Hnd Ha Hb Heq; [contradiction|].
  inversion Hnd as [|? ? Hnotin Hrest]; subst.
  destruct Ha as [->|Ha], Hb as [->|Hb].
  - reflexivity.
  - exfalso. apply Hnotin. rewrite Heq. apply List.in_map. exact Hb.
  - exfalso. apply Hnotin. rewrite <- Heq. apply List.in_map. exact Ha.
  - apply IH; assumption.
Qed.

Lemma subscribe_quiet (callback : callable) (b : bool) (ls : list listener) :
  Forall (fun l => quiet (l_callback l)) ls ->
  quiet callback ->
  Forall (fun l => quiet (l_callback l)) (subscribe callback b ls).
Proof.
  intros Hls Hcallback. apply List.Forall_forall. intros l Hl.
  assert (Hin : In (l_callback l) (map l_callback (subscribe callback b ls))).
  { apply List.in_map. exact Hl. }
  apply subscribe_callbacks in Hin. destruct Hin as [->|Hin]; [exact Hcallback|].
  apply List.in_map_iff in Hin. destruct Hin as (l0 & Heq & Hl0). rewrite <- Heq.
  exact (proj1 (List.Forall_forall _ ls) Hls l0 Hl0).
Qed.

(** X8: after a failed connection attempt, and likewise after a lost
    connection, [on_ready] does not call: [_proto] has been cleared, so the
    callback becomes a one-shot listener of [ready] and waits for the next
    open (added at the end when it was not registered, nothing changed when
    it was already queued).  The reconnect policy of the base class is taken
    to return without touching the protocol, the listeners or the trace. *)
Theorem disconnected_on_ready_queues (reason : string) (callback : callable)
    (w : World) :
  (forall w0, exists w1,
      Reconnecting_clientConnectionFailed w0 = Return tt w1
      /\ proto w1 = proto w0
      /\ _listeners (fact w1) = _listeners (fact w0)
      /\ trace w1 = trace w0) ->
  (forall w0, exists w1,
      Reconnecting_clientConnectionLost w0 = Return tt w1
      /\ proto w1 = proto w0
      /\ _listeners (fact w1) = _listeners (fact w0)
      /\ trace w1 = trace w0) ->
  let ls := listeners_of (KStr "ready") w in
  let queued_after (run : M unit) :=
    exists w',
      run w = Return tt w'
      /\ _proto (fact w') = None
      /\ In (mkListener callback true) (listeners_of (KStr "ready") w')
      /\ (~ In callback (map l_callback ls) ->
          listeners_of (KStr "ready") w' = (ls ++ [mkListener callback true])%list)
      /\ (List.NoDup (map l_callback ls) ->
          In (mkListener callback true) ls ->
          listeners_of (KStr "ready") w' = ls)
      /\ calls_to callback (trace w') = calls_to callback (trace w)
      /\ _pending_service_requests (proto w') = _pending_service_requests (proto w) in
  queued_after (clientConnectionFailed reason ;> on_ready callback)
  /\ queued_after (clientConnectionLost reason ;> on_ready callback).
Proof.
  intros Hfailed Hlost ls queued_after.
  assert (Hgeneral : forall (policy : M unit) (fmt method : string),
             (forall w0, exists w1,
                 policy w0 = Return tt w1
                 /\ proto w1 = proto w0
                 /\ _listeners (fact w1) = _listeners (fact w0)
                 /\ trace w1 = trace w0) ->
             queued_after
               (LOGGER DEBUG fmt (ArgStr reason) ;>
                modify (add_event (EvSuper method)) ;>
                policy ;>
                modify (set__proto None) ;>
                on_ready callback)).
  { intros policy fmt method Hpolicy.
    set (w0 := add_event (EvSuper method) (add_event (EvLog DEBUG fmt (ArgStr reason)) w)).
    destruct (Hpolicy w0) as (w1 & Hrun & Hproto & Hls & Htrace).
    set (w2 := set__proto None w1).
    assert (Hls2 : listeners_of (KStr "ready") w2 = ls).
    { unfold listeners_of, w2. simpl. rewrite Hls. reflexivity. }
    exists (set_listeners (fun t =>
              <[KStr "ready" := subscribe callback true
                                  (default [] (t !! KStr "ready"))]> t) w2).
    rewrite listeners_after_once_ready, Hls2.
    split; [|split; [|split; [|split; [|split; [|split]]]]].
    - unfold LOGGER, bind, modify. fold w0. rewrite Hrun. reflexivity.
    - reflexivity.
    - apply subscribe_entry.
    - apply subscribe_fresh.
    - apply subscribe_same.
    - simpl. rewrite Htrace. unfold w0. simpl.
      rewrite !calls_to_app_other by reflexivity. reflexivity.
    - simpl. rewrite Hproto. reflexivity. }
  split.
  - destruct (Hgeneral Reconnecting_clientConnectionFailed
                "Connection failed. Reason: %s" "clientConnectionFailed" Hfailed)
      as (w' & Hrun & Hrest).
    exists w'. split; [|exact Hrest].
    rewrite <- Hrun. unfold clientConnectionFailed, bind.
    destruct (LOGGER DEBUG "Connection failed. Reason: %s" (ArgStr reason) w);
      [|reflexivity].
    destruct (modify (add_event (EvSuper "clientConnectionFailed")) w0); [|reflexivity].
    destruct (Reconnecting_clientConnectionFailed w1); reflexivity.
  - destruct (Hgeneral Reconnecting_clientConnectionLost
                "Lost connection. Reason: %s" "clientConnectionLost" Hlost)
      as (w' & Hrun & Hrest).
    exists w'. split; [|exact Hrest].
    rewrite <- Hrun. unfold clientConnectionLost, bind.
    destruct (LOGGER DEBUG "Lost connection. Reason: %s" (ArgStr reason) w);
      [|reflexivity].
    destruct (modify (add_event (EvSuper "clientConnectionLost")) w0); [|reflexivity].
    destruct (Reconnecting_clientConnectionLost w1); reflexivity.
Qed.

End Sessions.

Section Lifecycles.
Context `{Collaborators}.

(** X9: a callback given to [on_ready] while no session is open is called
    by the next [ready] exactly once, with the protocol that opened, and it
    is not registered any more afterwards, so a later [ready] cannot call it
    again; this holds whether or not it was already a listener of [ready].
    When it was not, it is called after the listeners registered before it.
    The listener table has one entry per callback and all [ready] listeners
    are taken quiet. *)
Theorem on_ready_then_ready (callback : callable) (p : nat) (w : World) :
  let ls := listeners_of (KStr "ready") w in
  _proto (fact w) = None ->
  List.NoDup (map l_callback ls) ->
  Forall (fun l => quiet (l_callback l)) ls ->
  quiet callback ->
  exists w',
    (on_ready callback ;> ready p) w = Return tt w'
    /\ _proto (fact w') = Some p
    /\ calls_to callback (trace w') = S (calls_to callback (trace w))
    /\ ~ In callback (map l_callback (listeners_of (KStr "ready") w'))
    /\ (~ In callback (map l_callback ls) ->
        trace w'
        = (trace w ++ EvEmit (KStr "ready") (PyProtocol p)
             :: map (fun l => EvCall (l_callback l) [PyProtocol p]) ls
             ++ [EvCall callback [PyProtocol p]])%list
        /\ listeners_of (KStr "ready") w'
           = List.filter (fun l => negb (l_once l)) ls).
Proof.
  intros ls Hnone Hnodup Hquiet Hcallback.
  set (w1 := set_listeners (fun t =>
               <[KStr "ready" := subscribe callback true
                                   (default [] (t !! KStr "ready"))]> t) w).
  assert (Hqueue : on_ready callback w = Return tt w1).
  { unfold on_ready, bind at 1, get_world. rewrite Hnone. reflexivity. }
  set (w2 := set__proto (Some p) w1).
  assert (Hls2 : listeners_of (KStr "ready") w2 = subscribe callback true ls).
  { unfold w2, w1. apply listeners_after_once_ready. }
  assert (Hquiet2 : Forall (fun l => quiet (l_callback l)) (listeners_of (KStr "ready") w2)).
  { rewrite Hls2. apply subscribe_quiet; assumption. }
  assert (Hnodup2 : List.NoDup (map l_callback (subscribe callback true ls))).
  { apply subscribe_NoDup. exact Hnodup. }
  destruct (emit_quiet (PyStr "ready") (PyProtocol p) (KStr "ready") w2 eq_refl Hquiet2)
    as (w' & Hemit & Hls & Htrace & Hproto).
  rewrite Hls2 in Hls, Htrace.
  exists w'. split; [|split; [|split; [|split]]].
  - rewrite (bind_Return _ _ _ _ _ Hqueue). unfold ready, bind at 1, modify.
    exact Hemit.
  - rewrite Hproto. reflexivity.
  - rewrite Htrace, calls_to_emit_map.
    rewrite (proj1 (List.NoDup_count_occ' callable_eq_dec _) Hnodup2).
    + apply Nat.add_1_r.
    + apply subscribe_callbacks. left. reflexivity.
  - rewrite Hls. intros Hin. apply List.in_map_iff in Hin.
    destruct Hin as (l & Hcb & Hl). apply List.filter_In in Hl.
    destruct Hl as (Hl & Hpersistent).
    assert (Hsame : l = mkListener callback true).
    { apply (NoDup_callback_unique (subscribe callback true ls)); try assumption.
      apply subscribe_entry. }
    rewrite Hsame in Hpersistent. discriminate.
  - intros Hfresh. rewrite Htrace, Hls, (subscribe_fresh _ _ _ Hfresh). split.
    + rewrite List.map_app. reflexivity.
    + rewrite List.filter_app. simpl. apply List.app_nil_r.
Qed.

(** X10: once [ready] has run, [on_ready] calls at once: whatever
    [_proto] was before, after [ready p] a callback given to [on_ready] is
    called with protocol [p] right away and is not queued.  The [ready]
    listeners are taken quiet. *)
Theorem ready_then_on_ready (callback : callable) (p : nat) (w : World) :
  Forall (fun l => quiet (l_callback l)) (listeners_of (KStr "ready") w) ->
  exists w1,
    ready p w = Return tt w1
    /\ _proto (fact w1) = Some p
    /\ (ready p ;> on_ready callback) w = call callback [PyProtocol p] w1.
Proof.
  intros Hquiet.
  destruct (emit_quiet (PyStr "ready") (PyProtocol p) (KStr "ready")
              (set__proto (Some p) w) eq_refl Hquiet)
    as (w1 & Hemit & _ & _ & Hproto).
  assert (Hready : ready p w = Return tt w1).
  { unfold ready, bind at 1, modify. exact Hemit. }
  exists w1. split; [exact Hready|]. split; [rewrite Hproto; reflexivity|].
  rewrite (bind_Return _ _ _ _ _ Hready).
  unfold on_ready, bind at 1, get_world. rewrite Hproto. reflexivity.
Qed.

(** ** A request and its response *)

(** X11: a service request followed by a response with the same id leaves
    no entry under that id, whichever continuation the response selects and
    whether or not it carries [values]; every other pending request is as
    it was, and when the id was not pending before, the registry is exactly
    what it was before the request.  The transport and the callbacks are
    taken to leave the protocol alone. *)
Theorem request_then_response_restores_registry (request response : Message)
    (callback errback : option callable) (request_id response_id : pyval)
    (k : pykey) (frame : string) (w : World) :
  (forall payload w0, exists w1,
      transport_sendMessage payload w0 = Return tt w1 /\ proto w1 = proto w0) ->
  (forall f args w0,
      match run_callable f args w0 with
      | Return _ w1 | Raise _ w1 => proto w1 = proto w0
      end) ->
  msg_get "id" request = Some request_id ->
  hash_key request_id = Some k ->
  json_dumps request = inr frame ->
  msg_get "id" response = Some response_id ->
  hash_key response_id = Some k ->
  match (send_ros_service_request request callback errback ;>
         _handle_service_response response) w with
  | Return _ w' | Raise _ w' =>
      _pending_service_requests (proto w')
      = delete k (_pending_service_requests (proto w))
      /\ (_pending_service_requests (proto w) !! k = None ->
          _pending_service_requests (proto w') = _pending_service_requests (proto w))
  end.
Proof.
  intros Htransport Hcallbacks Hid Hk Hdumps Hid' Hk'.
  set (registered := set_pending (fun t => <[k := (callback, errback)]> t) w).
  set (w0 := add_event (EvSend frame)
               (add_event (EvLog DEBUG "Sending ROS service request: %s" (ArgStr frame))
                  registered)).
  destruct (Htransport frame w0) as (w1 & Hsend & Hproto1).
  assert (Hrequest : send_ros_service_request request callback errback w = Return tt w1).
  { unfold send_ros_service_request. lookups.
    unfold bind at 1. unfold modify. fold registered.
    rewrite Hdumps. simpl lift. unfold bind at 1. unfold ret.
    unfold LOGGER, self_sendMessage, bind, modify. fold w0. rewrite Hsend.
    reflexivity. }
  assert (Hpending1 : _pending_service_requests (proto w1) !! k
                      = Some (callback, errback)).
  { rewrite Hproto1. simpl. apply lookup_insert_eq. }
  set (consumed := set_pending (fun t => delete k t) w1).
  assert (Hconsumed : _pending_service_requests (proto consumed)
                      = delete k (_pending_service_requests (proto w))).
  { unfold consumed. simpl. rewrite Hproto1. simpl. apply delete_insert_eq. }
  assert (Hgoal : forall w',
             proto w' = proto consumed ->
             _pending_service_requests (proto w')
             = delete k (_pending_service_requests (proto w))
             /\ (_pending_service_requests (proto w) !! k = None ->
                 _pending_service_requests (proto w')
                 = _pending_service_requests (proto w))).
  { intros w' Hw'. rewrite Hw', Hconsumed. split; [reflexivity|].
    intros Hfresh. apply delete_id. exact Hfresh. }
  assert (Hcall : forall f args,
             match call f args consumed with
             | Return _ w' | Raise _ w' => proto w' = proto consumed
             end).
  { intros f args. unfold call, bind, modify.
    pose proof (Hcallbacks f args (add_event (EvCall f args) consumed)) as Hf.
    destruct (run_callable f args (add_event (EvCall f args) consumed));
      exact Hf. }
  rewrite (bind_Return _ _ _ _ _ Hrequest).
  unfold _handle_service_response. lookups.
  unfold bind at 1. unfold get_world. rewrite Hpending1.
  unfold bind at 1. unfold modify. fold consumed.
  destruct (result_is_False response).
  - destruct errback as [f|]; [|apply Hgoal; reflexivity].
    destruct (msg_get "values" response) as [values|] eqn:Hvalues; lookups.
    + pose proof (Hcall f [values]) as Hf.
      destruct (call f [values] consumed); apply Hgoal; exact Hf.
    + apply Hgoal. reflexivity.
  - destruct callback as [f|]; [|apply Hgoal; reflexivity].
    destruct (msg_get "values" response) as [values|] eqn:Hvalues; lookups.
    + pose proof (Hcall f [ServiceResponse values]) as Hf.
      destruct (call f [ServiceResponse values] consumed); apply Hgoal; exact Hf.
    + apply Hgoal. reflexivity.
Qed.

End Lifecycles.

(** * Further properties of the codec *)

Section CodecFailures.
Context `{PngCompression.Libraries}.

(** X12: [decode_png] returns a value exactly when all four steps
    succeed, and then the value is the text decoded from the image's bytes;
    a failure of the base64 decoding, of opening the image, of reading its
    bytes or of the UTF-8 decoding is the failure of [decode_png]. *)
Theorem decode_png_succeeds_iff (string : PngCompression.text)
    (v : PngCompression.value) :
  PngCompression.decode_png string = inr v
  <-> exists decoded i pixels s,
        PngCompression.standard_b64decode string = inr decoded
        /\ PngCompression.Image_open decoded = inr i
        /\ PngCompression.tobytes i = inr pixels
        /\ PngCompression.bytes_decode_utf8 pixels = inr s
        /\ v = PngCompression.Str s.
Proof.
  unfold PngCompression.decode_png. split.
  - destruct (PngCompression.standard_b64decode string) as [e|decoded] eqn:Hd; simpl;
      [discriminate|].
    destruct (PngCompression.Image_open decoded) as [e|i] eqn:Hi; simpl;
      [discriminate|].
    destruct (PngCompression.tobytes i) as [e|pixels] eqn:Hp; simpl; [discriminate|].
    destruct (PngCompression.bytes_decode_utf8 pixels) as [e|s] eqn:Hs; simpl;
      [discriminate|].
    intros [= <-]. exists decoded, i, pixels, s. repeat split; assumption.
  - intros (decoded & i & pixels & s & Hd & Hi & Hp & Hs & ->).
    rewrite Hd. simpl. rewrite Hi. simpl. rewrite Hp. simpl. rewrite Hs. reflexivity.
Qed.

End CodecFailures.

Section Requests.
Context `{Collaborators}.

(** X14: [send_ros_message] registers nothing.  With a transport that
    leaves the protocol alone, the registry and the handler table are the
    same after the call as before, whether the frame was sent, could not be
    serialized, or was refused by the transport. *)
Theorem send_ros_message_keeps_protocol (message : Message) (w : World) :
  (forall payload w0,
      match transport_sendMessage payload w0 with
      | Return _ w1 | Raise _ w1 => proto w1 = proto w0
      end) ->
  match send_ros_message message w with
  | Return _ w' | Raise _ w' => proto w' = proto w
  end.
Proof.
  intros Htransport. unfold send_ros_message, try_except_StandardError.
  destruct (json_dumps message) as [e|frame]; simpl.
  - unfold bind, raise. destruct (is_StandardError e); reflexivity.
  - unfold bind, ret, LOGGER, self_sendMessage, bind, modify.
    pose proof (Htransport frame
                  (add_event (EvSend frame)
                     (add_event (EvLog DEBUG "Sending ROS message: %s" (ArgStr frame)) w)))
      as Hsend.
    destruct (transport_sendMessage frame _) as [[] w1|e w1]; [exact Hsend|].
    destruct (is_StandardError e); exact Hsend.
Qed.

(** X15: a second request under an id that is still pending silently
    replaces the first: after the two requests the registry is what the
    second request alone would have left, so the continuations of the first
    can no longer be reached by any response.  The transport is taken to
    accept frames and leave the protocol alone. *)
Theorem second_request_replaces_first (first second : Message)
    (callback1 errback1 callback2 errback2 : option callable)
    (id1 id2 : pyval) (k : pykey) (frame1 frame2 : string) (w : World) :
  (forall payload w0, exists w1,
      transport_sendMessage payload w0 = Return tt w1 /\ proto w1 = proto w0) ->
  msg_get "id" first = Some id1 ->
  hash_key id1 = Some k ->
  json_dumps first = inr frame1 ->
  msg_get "id" second = Some id2 ->
  hash_key id2 = Some k ->
  json_dumps second = inr frame2 ->
  exists w',
    (send_ros_service_request first callback1 errback1 ;>
     send_ros_service_request second callback2 errback2) w = Return tt w'
    /\ _pending_service_requests (proto w') !! k = Some (callback2, errback2)
    /\ _pending_service_requests (proto w')
       = <[k := (callback2, errback2)]> (_pending_service_requests (proto w)).
Proof.
  intros Htransport Hid1 Hk1 Hdumps1 Hid2 Hk2 Hdumps2.
  assert (Hsend : forall (m : Message) cb eb frame idv w0,
             msg_get "id" m = Some idv ->
             hash_key idv = Some k ->
             json_dumps m = inr frame ->
             exists w1,
               send_ros_service_request m cb eb w0 = Return tt w1
               /\ _pending_service_requests (proto w1)
                  = <[k := (cb, eb)]> (_pending_service_requests (proto w0))).
  { intros m cb eb frame idv w0 Hid Hk Hdumps.
    set (registered := set_pending (fun t => <[k := (cb, eb)]> t) w0).
    destruct (Htransport frame
                (add_event (EvSend frame)
                   (add_event (EvLog DEBUG "Sending ROS service request: %s"
                                 (ArgStr frame)) registered)))
      as (w1 & Hrun & Hproto).
    exists w1. split.
    - unfold send_ros_service_request. lookups.
      unfold bind at 1. unfold modify. fold registered.
      rewrite Hdumps. simpl lift. unfold bind at 1. unfold ret.
      unfold LOGGER, self_sendMessage, bind, modify. rewrite Hrun. reflexivity.
    - rewrite Hproto. reflexivity. }
  destruct (Hsend first callback1 errback1 frame1 id1 w Hid1 Hk1 Hdumps1)
    as (w1 & Hrun1 & Hpending1).
  destruct (Hsend second callback2 errback2 frame2 id2 w1 Hid2 Hk2 Hdumps2)
    as (w2 & Hrun2 & Hpending2).
  exists w2. split; [|split].
  - rewrite (bind_Return _ _ _ _ _ Hrun1). exact Hrun2.
  - rewrite Hpending2. apply lookup_insert_eq.
  - rewrite Hpending2, Hpending1. apply insert_insert_eq.
Qed.

Lemma filter_persistent_idem (ls : list listener) :
  List.filter (fun l => negb (l_once l)) (List.filter (fun l => negb (l_once l)) ls)
  = List.filter (fun l => negb (l_once l)) ls.
Proof.
  induction ls as [|l rest IH]; [reflexivity|]. simpl.
  destruct (l_once l) eqn:Honce; simpl; [exact IH|].
  rewrite Honce. simpl. rewrite IH. reflexivity.
Qed.

(** X16: when the session opens a second time, the one-shot listeners of
    [ready] that the first opening consumed are not called again, while the
    persistent ones are called at both openings, each time with the protocol
    that opened; [_proto] ends as the second protocol.  The listeners are
    taken quiet. *)
Theorem ready_twice (p p' : nat) (w : World) :
  Forall (fun l => quiet (l_callback l)) (listeners_of (KStr "ready") w) ->
  let persistent := List.filter (fun l => negb (l_once l))
                      (listeners_of (KStr "ready") w) in
  exists w',
    (ready p ;> ready p') w = Return tt w'
    /\ _proto (fact w') = Some p'
    /\ trace w'
       = (trace w
            ++ EvEmit (KStr "ready") (PyProtocol p)
               :: map (fun l => EvCall (l_callback l) [PyProtocol p])
                    (listeners_of (KStr "ready") w)
            ++ EvEmit (KStr "ready") (PyProtocol p')
               :: map (fun l => EvCall (l_callback l) [PyProtocol p']) persistent)%list
    /\ listeners_of (KStr "ready") w' = persistent.
Proof.
  intros Hquiet persistent.
  destruct (emit_quiet (PyStr "ready") (PyProtocol p) (KStr "ready")
              (set__proto (Some p) w) eq_refl Hquiet)
    as (w1 & Hemit1 & Hls1 & Htrace1 & _).
  change (listeners_of (KStr "ready") (set__proto (Some p) w))
    with (listeners_of (KStr "ready") w) in Hls1, Htrace1.
  fold persistent in Hls1.
  assert (Hquiet1 : Forall (fun l => quiet (l_callback l))
                      (listeners_of (KStr "ready") (set__proto (Some p') w1))).
  { change (listeners_of (KStr "ready") (set__proto (Some p') w1))
      with (listeners_of (KStr "ready") w1).
    rewrite Hls1. apply List.Forall_forall. intros l Hl.
    apply List.filter_In in Hl. destruct Hl as [Hl _].
    revert l Hl. apply List.Forall_forall. exact Hquiet. }
  destruct (emit_quiet (PyStr "ready") (PyProtocol p') (KStr "ready")
              (set__proto (Some p') w1) eq_refl Hquiet1)
    as (w2 & Hemit2 & Hls2 & Htrace2 & Hproto2).
  change (listeners_of (KStr "ready") (set__proto (Some p') w1))
    with (listeners_of (KStr "ready") w1) in Hls2, Htrace2.
  exists w2. split; [|split; [|split]].
  - assert (Hready1 : ready p w = Return tt w1).
    { unfold ready, bind at 1, modify. exact Hemit1. }
    rewrite (bind_Return _ _ _ _ _ Hready1).
    unfold ready, bind at 1, modify. exact Hemit2.
  - rewrite Hproto2. reflexivity.
  - rewrite Htrace2, Hls1. simpl trace. rewrite Htrace1. simpl trace.
    rewrite <- List.app_assoc. reflexivity.
  - rewrite Hls2, Hls1. unfold persistent. apply filter_persistent_idem.
Qed.

End Requests.

(** * Examples for the further properties *)

Lemma example_callbacks_quiet (f : callable) : @quiet C f.
Proof. intros args w. exists w. split; [reflexivity|]. split; reflexivity. Qed.

Lemma example_listeners_quiet (ls : list listener) :
  Forall (fun l => @quiet C (l_callback l)) ls.
Proof. apply List.Forall_forall. intros l _. apply example_callbacks_quiet. Qed.

Lemma status_not_handled : _message_handlers (proto connected) !! KStr "status" = None.
Proof. vm_compute. reflexivity. Qed.

Lemma register_then_onMessage_witness :
  (register_message_handlers (PyStr "status") (Some (HCustom on_success)) ;>
   @onMessage C (frame_of status_message) false) connected
  = @call C on_success [PyMessage status_message]
      (set_handlers (fun t => <[KStr "status" := Some (HCustom on_success)]> t) connected).
Proof.
  exact (@register_then_onMessage C (frame_of status_message) status_message
           (PyStr "status") (KStr "status") on_success connected
           loads_status_message eq_refl eq_refl status_not_handled).
Defined.

Lemma register_None_occupies_witness :
  let occupied := set_handlers (fun t => <[KStr "status" := None]> t) connected in
  register_message_handlers (PyStr "status") None connected = Return tt occupied
  /\ register_message_handlers (PyStr "status") (Some (HCustom on_success)) occupied
     = Raise (StandardError "Only one handler can be registered per operation" [])
         occupied
  /\ @onMessage C (frame_of status_message) false occupied
     = Raise (StandardError no_operation_handler [PyStr "status"]) occupied.
Proof.
  exact (@register_None_occupies C (frame_of status_message) status_message
           (PyStr "status") (KStr "status") (Some (HCustom on_success)) connected
           loads_status_message eq_refl eq_refl status_not_handled).
Defined.

Lemma fresh_protocol_routing_witness :
  @onMessage C (frame_of status_message) false connected
  = Raise (StandardError no_operation_handler [PyStr "status"]) connected
  /\ @onMessage C (frame_of publish_chatter) false connected
     = @_handle_publish C publish_chatter connected.
Proof.
  split.
  - exact (@fresh_protocol_routing C (frame_of status_message) status_message
             "status" 1 connected eq_refl loads_status_message eq_refl).
  - exact (@fresh_protocol_routing C (frame_of publish_chatter) publish_chatter
             "publish" 1 connected eq_refl loads_publish_chatter eq_refl).
Defined.

Lemma publish_reaches_listeners_witness :
  exists w',
    @onMessage C (frame_of publish_chatter) false subscribed = Return tt w'
    /\ trace w'
       = [EvEmit (KStr "/chatter") (PyDict [("data", PyStr "hello")]);
          EvCall (Callable 30) [PyDict [("data", PyStr "hello")]];
          EvCall (Callable 31) [PyDict [("data", PyStr "hello")]]]
    /\ @listeners_of (KStr "/chatter") w' = [mkListener (Callable 30) false].
Proof.
  destruct (@publish_reaches_listeners C (frame_of publish_chatter) publish_chatter
              (PyStr "/chatter") (PyDict [("data", PyStr "hello")]) (KStr "/chatter")
              subscribed loads_publish_chatter eq_refl)
    as (w' & Hrun & Htrace & Hls).
  - vm_compute. reflexivity.
  - reflexivity.
  - reflexivity.
  - reflexivity.
  - reflexivity.
  - apply example_listeners_quiet.
  - exists w'. split; [exact Hrun|]. split.
    + rewrite Htrace. vm_compute. reflexivity.
    + rewrite Hls. vm_compute. reflexivity.
Defined.

Lemma handle_publish_missing_field_witness :
  @_handle_publish C status_message connected = Raise (KeyError "topic") connected
  /\ @_handle_publish C [("op", PyStr "publish"); ("topic", PyStr "/chatter")] connected
     = Raise (KeyError "msg") connected.
Proof.
  split.
  - destruct (@handle_publish_missing_field C status_message connected eq_refl)
      as (Htopic & _).
    apply Htopic. reflexivity.
  - destruct (@handle_publish_missing_field C
                [("op", PyStr "publish"); ("topic", PyStr "/chatter")] connected eq_refl)
      as (_ & Hmsg).
    apply Hmsg; [discriminate|reflexivity].
Defined.

Lemma detached_protocol_raises_witness :
  @onOpen C detached
  = Raise (AttributeError "ready")
      (add_event (EvLog INFO "Connection to ROS MASTER ready." (ArgStr EmptyString))
         detached)
  /\ @_handle_publish C publish_chatter detached = Raise (AttributeError "emit") detached
  /\ @_handle_service_request C call_add detached
     = Raise (AttributeError "emit") detached.
Proof.
  destruct (@detached_protocol_raises C publish_chatter detached eq_refl)
    as (Hopen & Hpublish & _).
  destruct (@detached_protocol_raises C call_add detached eq_refl)
    as (_ & _ & Hservice).
  split; [exact Hopen|]. split; [exact Hpublish|exact Hservice].
Defined.

Lemma disconnected_on_ready_queues_witness :
  exists w',
    (@clientConnectionFailed C "refused" ;> @on_ready C on_success)
      (set__proto (Some 1%nat) connected) = Return tt w'
    /\ _proto (fact w') = None
    /\ @listeners_of (KStr "ready") w' = [mkListener on_success true].
Proof.
  destruct (@disconnected_on_ready_queues C "refused" on_success
              (set__proto (Some 1%nat) connected))
    as ((w' & Hrun & Hproto & _ & Hfresh & _) & _).
  - intros w0. exists w0. repeat split.
  - intros w0. exists w0. repeat split.
  - exists w'. split; [exact Hrun|]. split; [exact Hproto|].
    rewrite Hfresh; [reflexivity|]. intros Hin. exact Hin.
Defined.

Lemma on_ready_then_ready_witness :
  exists w',
    (@on_ready C (Callable 20) ;> @ready C 1) queued = Return tt w'
    /\ calls_to (Callable 20) (trace w') = 1%nat
    /\ trace w'
       = [EvEmit (KStr "ready") (PyProtocol 1);
          EvCall (Callable 10) [PyProtocol 1];
          EvCall (Callable 11) [PyProtocol 1];
          EvCall (Callable 12) [PyProtocol 1];
          EvCall (Callable 20) [PyProtocol 1]]
    /\ @listeners_of (KStr "ready") w' = [mkListener (Callable 11) false].
Proof.
  destruct (@on_ready_then_ready C (Callable 20) 1 queued eq_refl
              ready_listeners_queued_NoDup
              (example_listeners_quiet _) (example_callbacks_quiet _))
    as (w' & Hrun & _ & Hcalls & _ & Hfresh).
  destruct Hfresh as (Htrace & Hls).
  { rewrite ready_listeners_queued. simpl. intuition discriminate. }
  exists w'. split; [exact Hrun|]. split; [exact Hcalls|]. split.
  - rewrite Htrace, ready_listeners_queued. reflexivity.
  - rewrite Hls, ready_listeners_queued. reflexivity.
Defined.

Lemma ready_then_on_ready_witness :
  exists w1,
    @ready C 1 queued = Return tt w1
    /\ _proto (fact w1) = Some 1%nat
    /\ (@ready C 1 ;> @on_ready C (Callable 20)) queued
       = @call C (Callable 20) [PyProtocol 1] w1.
Proof.
  exact (@ready_then_on_ready C (Callable 20) 1 queued (example_listeners_quiet _)).
Defined.

Lemma ready_twice_witness :
  exists w',
    (@ready C 1 ;> @ready C 2) queued = Return tt w'
    /\ _proto (fact w') = Some 2%nat
    /\ trace w'
       = [EvEmit (KStr "ready") (PyProtocol 1);
          EvCall (Callable 10) [PyProtocol 1];
          EvCall (Callable 11) [PyProtocol 1];
          EvCall (Callable 12) [PyProtocol 1];
          EvEmit (KStr "ready") (PyProtocol 2);
          EvCall (Callable 11) [PyProtocol 2]]
    /\ @listeners_of (KStr "ready") w' = [mkListener (Callable 11) false].
Proof.
  destruct (@ready_twice C 1 2 queued (example_listeners_quiet _))
    as (w' & Hrun & Hproto & Htrace & Hls).
  exists w'. split; [exact Hrun|]. split; [exact Hproto|]. split.
  - rewrite Htrace. vm_compute. reflexivity.
  - rewrite Hls. vm_compute. reflexivity.
Defined.

Lemma example_transport_accepts (payload : string) (w0 : World) :
  exists w1, @transport_sendMessage C payload w0 = Return tt w1 /\ proto w1 = proto w0.
Proof. exists w0. split; reflexivity. Qed.

Lemma request_then_response_restores_registry_witness :
  match (@send_ros_service_request C call_add (Some on_success) (Some on_failure) ;>
         @_handle_service_response C response_ok) connected with
  | Return _ w' | Raise _ w' =>
      _pending_service_requests (proto w')
      = delete (KStr "1") (_pending_service_requests (proto connected))
      /\ (_pending_service_requests (proto connected) !! KStr "1" = None ->
          _pending_service_requests (proto w')
          = _pending_service_requests (proto connected))
  end.
Proof.
  apply (@request_then_response_restores_registry C call_add response_ok
           (Some on_success) (Some on_failure) (PyStr "1") (PyStr "1") (KStr "1")
           (frame_of call_add) connected).
  - exact example_transport_accepts.
  - intros f args w0. reflexivity.
  - reflexivity.
  - reflexivity.
  - vm_compute. reflexivity.
  - reflexivity.
  - reflexivity.
Defined.

Lemma send_ros_message_keeps_protocol_witness :
  match @send_ros_message collaborators_closed publish_chatter waiting with
  | Return _ w' | Raise _ w' => proto w' = proto waiting
  end.
Proof.
  apply (@send_ros_message_keeps_protocol collaborators_closed publish_chatter waiting).
  intros payload w0. reflexivity.
Defined.

Lemma second_request_replaces_first_witness :
  exists w',
    (@send_ros_service_request C call_add (Some on_success) (Some on_failure) ;>
     @send_ros_service_request C call_add (Some other_success) (Some other_failure))
      connected = Return tt w'
    /\ _pending_service_requests (proto w') !! KStr "1"
       = Some (Some other_success, Some other_failure)
    /\ _pending_service_requests (proto w')
       = <[KStr "1" := (Some other_success, Some other_failure)]>
           (_pending_service_requests (proto connected)).
Proof.
  apply (@second_request_replaces_first C call_add call_add
           (Some on_success) (Some on_failure) (Some other_success) (Some other_failure)
           (PyStr "1") (PyStr "1") (KStr "1") (frame_of call_add) (frame_of call_add)
           connected).
  - exact example_transport_accepts.
  - reflexivity.
  - reflexivity.
  - vm_compute. reflexivity.
  - reflexivity.
  - reflexivity.
  - vm_compute. reflexivity.
Defined.
